(** * The MeshCore bridge (scripts/meshcore-bridge.py)

  A shallow embedding of the bridge process: the Python values it handles,
  the [meshcore] package it drives, the command handlers of class
  [MeshCoreBridge] and its line loop [run], followed by the properties of
  the bridge that are established on that embedding.

  Conventions of the embedding.
  - Python values are the JSON-shaped values [Py.value]; dictionaries keep
    their insertion order (association lists, first binding wins), floats
    are binary64. Every such value can be serialized, so a printed line
    is represented by the value handed to [json.dumps].
  - An [async def] of the bridge is a computation in the monad [M]: it
    threads the fields of [self] and the state of the outside world, may
    raise, and records every call it makes into the [meshcore] package
    together with what the call answered.
  - The [meshcore] package, the serial line and the radio are not part of
    the program: they are an arbitrary [MeshCore.Library] over an arbitrary
    world [W], so every statement holds for every behaviour of the device.
  - Standard input is the list of what the successive [readline] calls of
    the loop produce; after the list the stream is at end of file. A
    termination signal is an entry of that list, at the turn of the loop
    during which its handler runs. (A signal in the short window between
    the installation of the handlers and the first test of the loop is
    not represented.)
  - An exception object carries whether it is an instance of [Exception]:
    [except Exception] catches only those, the bare [except] catches all,
    and what nothing catches leaves [run] and ends the process. *)

From Stdlib Require Import String Ascii List ZArith Bool Lia.
From Stdlib Require Import Floats.PrimFloat.
Import ListNotations.
Open Scope string_scope.

Set Implicit Arguments.

(* ================================================================== *)
(** * Python values *)

Module Py.

Inductive value : Type :=
| PyNone
| PyBool (b : bool)
| PyInt (n : Z)
| PyFloat (x : float)
| PyStr (s : string)
| PyList (elements : list value)
| PyDict (entries : list (string * value)).

(** An exception object: its class, [str(e)], and whether it is an
    instance of [Exception] (as opposed to a [BaseException] that is not,
    such as [asyncio.CancelledError], [KeyboardInterrupt], [SystemExit]). *)
Record Exception : Type := mkException {
  exc_class : string;
  exc_message : string;
  exc_is_Exception : bool
}.

(** [str(e)] *)
Definition str (e : Exception) : string := exc_message e.

(** What evaluating a Python expression yields. *)
Inductive Outcome (A : Type) : Type :=
| Return (a : A)
| Raise (e : Exception).
Arguments Return {A} a.
Arguments Raise {A} e.

Definition obind {A B : Type} (m : Outcome A) (k : A -> Outcome B) : Outcome B :=
  match m with
  | Return a => k a
  | Raise e => Raise e
  end.

(** [type(v).__name__] *)
Definition type_name (v : value) : string :=
  match v with
  | PyNone => "NoneType"
  | PyBool _ => "bool"
  | PyInt _ => "int"
  | PyFloat _ => "float"
  | PyStr _ => "str"
  | PyList _ => "list"
  | PyDict _ => "dict"
  end.

(** The error of [obj.attr] on an object that has no such attribute. *)
Definition AttributeError (obj : value) (attr : string) : Exception :=
  {| exc_class := "AttributeError";
     exc_message := "'" ++ type_name obj ++ "' object has no attribute '" ++ attr ++ "'";
     exc_is_Exception := true |}.

(** [bool(v)]: the truth value tested by [if], [not] and [or]. *)
Definition truthy (v : value) : bool :=
  match v with
  | PyNone => false
  | PyBool b => b
  | PyInt n => negb (n =? 0)%Z
  | PyFloat x => negb (PrimFloat.eqb x 0%float)
  | PyStr s => negb (s =? "")
  | PyList l => match l with [] => false | _ :: _ => true end
  | PyDict d => match d with [] => false | _ :: _ => true end
  end.

(** [v is None] *)
Definition is_None (v : value) : bool :=
  match v with
  | PyNone => true
  | _ => false
  end.

(** [v == 'literal'] for a string literal. *)
Definition eq_str (v : value) (literal : string) : bool :=
  match v with
  | PyStr s => (s =? literal)
  | _ => false
  end.

(** [v == 0.0]: numeric comparison with the float zero ([bool] is a
    subclass of [int]; both float zeros compare equal; nothing else does). *)
Definition eq_zero (v : value) : bool :=
  match v with
  | PyBool b => negb b
  | PyInt n => (n =? 0)%Z
  | PyFloat x => PrimFloat.eqb x 0%float
  | _ => false
  end.

Fixpoint lookup (key : string) (entries : list (string * value)) : option value :=
  match entries with
  | [] => None
  | (k, v) :: rest => if (k =? key) then Some v else lookup key rest
  end.

(** [obj.get(key, default)]; [obj.get(key)] is [get obj key PyNone]. *)
Definition get (obj : value) (key : string) (default : value) : Outcome value :=
  match obj with
  | PyDict d =>
      Return (match lookup key d with Some v => v | None => default end)
  | _ => Raise (AttributeError obj "get")
  end.

(** [obj.items()] *)
Definition items (obj : value) : Outcome (list (string * value)) :=
  match obj with
  | PyDict d => Return d
  | _ => Raise (AttributeError obj "items")
  end.

(** [a or b] on two expressions: [b] is evaluated only when [a] is falsy. *)
Definition or_else (a b : Outcome value) : Outcome value :=
  obind a (fun x => if truthy x then Return x else b).

(** [response[key]] read back from an emitted object ([PyNone] if absent). *)
Definition field (obj : value) (key : string) : value :=
  match obj with
  | PyDict d => match lookup key d with Some v => v | None => PyNone end
  | _ => PyNone
  end.

(** [key in obj] *)
Definition has_key (obj : value) (key : string) : bool :=
  match obj with
  | PyDict d => match lookup key d with Some _ => true | None => false end
  | _ => false
  end.

End Py.
Import Py.

Declare Scope outcome_scope.
Delimit Scope outcome_scope with O.
Notation "x <- m ;; k" := (obind m (fun x => k))
  (at level 61, m at next level, right associativity) : outcome_scope.

(* ================================================================== *)
(** * The meshcore package, as the bridge uses it *)

Module MeshCore.

(** [SerialConnection(port, baudrate=baud)] and [TCPConnection(host, port)]. *)
Inductive Connection : Type :=
| SerialConnection (port baudrate : value)
| TCPConnection (host port : value).

(** [MeshCore(connection)], built on whatever [self.connection] holds. *)
Inductive Client : Type :=
| MeshCore (cx : option Connection).

(** The methods of a [MeshCore] object the bridge calls. *)
Inductive Method : Type :=
| connect
| disconnect
| commands_get_contacts
| commands_send_msg (dst msg : value)
| commands_send_chan_msg (chan msg : value)
| commands_send_advert
| commands_send_login (dst pwd : value)
| commands_req_status_sync (dst timeout : value)
| commands_set_name (name : value)
| commands_set_radio (freq bw sf cr : value).

Inductive Call : Type :=
| NewConnection (cx : Connection)
| NewMeshCore (mc : Client)
| Invoke (mc : Client) (m : Method).

(** The package over a world [W]: what each call answers and how it
    changes the world, and the two attributes the bridge reads. *)
Record Library (W : Type) : Type := mkLibrary {
  answer : Call -> W -> Outcome value * W;
  self_info : Client -> W -> value;
  contacts : Client -> W -> value
}.

(** One entry of the call log: the call and its answer. *)
Record Exchange : Type := mkExchange {
  call : Call;
  result : Outcome value
}.

End MeshCore.
Import MeshCore.

(** What the bridge's module sees of its environment. *)
Class Runtime : Type := mkRuntime {
  W : Type;
  lib : Library W;
  (* the two flags set by the guarded imports at the top of the module *)
  MESHCORE_AVAILABLE : bool;
  TCP_AVAILABLE : bool;
  (* [repr(v)] of a value that is not a string *)
  repr : value -> string;
  (* [traceback.format_exc()] while handling [e] *)
  format_exc : Exception -> string
}.

(** [f'{v}'] *)
Definition format `{Runtime} (v : value) : string :=
  match v with
  | PyStr s => s
  | _ => repr v
  end.

(* ================================================================== *)
(** * class MeshCoreBridge *)

Record MeshCoreBridge : Type := mkBridge {
connection : option Connection;
meshcore : option Client;
connected : bool;
running : bool
}.

Definition __init__ : MeshCoreBridge :=
{| connection := None; meshcore := None; connected := false; running := true |}.

Definition with_connection (c : option Connection) (self : MeshCoreBridge) : MeshCoreBridge :=
{| connection := c; meshcore := meshcore self;
   connected := connected self; running := running self |}.

Definition with_meshcore (m : option Client) (self : MeshCoreBridge) : MeshCoreBridge :=
{| connection := connection self; meshcore := m;
   connected := connected self; running := running self |}.

Definition with_connected (b : bool) (self : MeshCoreBridge) : MeshCoreBridge :=
{| connection := connection self; meshcore := meshcore self;
   connected := b; running := running self |}.

Definition with_running (b : bool) (self : MeshCoreBridge) : MeshCoreBridge :=
{| connection := connection self; meshcore := meshcore self;
   connected := connected self; running := b |}.

(** [bool(h)] of an optional object handle. *)
Definition present {A : Type} (h : option A) : bool :=
match h with
| Some _ => true
| None => false
end.

Section Bridge.

Context `{RT : Runtime}.

(** ** The monad of the handlers *)

Record State : Type := mkState {
  self : MeshCoreBridge;
  world : W
}.

Record Result (A : Type) : Type := mkResult {
  outcome : Outcome A;
  after : State;
  calls : list Exchange
}.

Definition M (A : Type) : Type := State -> Result A.

Definition ret {A : Type} (a : A) : M A :=
  fun s => {| outcome := Return a; after := s; calls := [] |}.

Definition raise {A : Type} (e : Exception) : M A :=
  fun s => {| outcome := Raise e; after := s; calls := [] |}.

Definition bind {A B : Type} (m : M A) (k : A -> M B) : M B :=
  fun s =>
    match m s with
    | mkResult (Return a) s1 log1 =>
        match k a s1 with
        | mkResult o s2 log2 => mkResult o s2 (log1 ++ log2)
        end
    | mkResult (Raise e) s1 log1 => mkResult (Raise e) s1 log1
    end.

(** A pure expression evaluated inside a handler. *)
Definition lift {A : Type} (o : Outcome A) : M A :=
  fun s => {| outcome := o; after := s; calls := [] |}.

(** [try: body / except: handler(e)], the bare [except] that catches
    everything. *)
Definition try_except {A : Type} (body : M A) (handler : Exception -> M A) : M A :=
  fun s =>
    match body s with
    | mkResult (Return a) s1 log1 => mkResult (Return a) s1 log1
    | mkResult (Raise e) s1 log1 =>
        match handler e s1 with
        | mkResult o s2 log2 => mkResult o s2 (log1 ++ log2)
        end
    end.

(** [try: body / except Exception as e: handler(e)]: an exception that is
    no instance of [Exception] goes through. *)
Definition try_except_Exception {A : Type} (body : M A) (handler : Exception -> M A)
  : M A :=
  fun s =>
    match body s with
    | mkResult (Return a) s1 log1 => mkResult (Return a) s1 log1
    | mkResult (Raise e) s1 log1 =>
        if exc_is_Exception e then
          match handler e s1 with
          | mkResult o s2 log2 => mkResult o s2 (log1 ++ log2)
          end
        else mkResult (Raise e) s1 log1
    end.

Definition get_self : M MeshCoreBridge :=
  fun s => {| outcome := Return (self s); after := s; calls := [] |}.

(** [self.<field> = ...] *)
Definition assign (f : MeshCoreBridge -> MeshCoreBridge) : M unit :=
  fun s => {| outcome := Return tt;
              after := {| self := f (self s); world := world s |};
              calls := [] |}.

(** A call into the package: answered by the library, and logged. *)
Definition perform (c : Call) : M value :=
  fun s =>
    let (o, w') := answer lib c (world s) in
    {| outcome := o;
       after := {| self := self s; world := w' |};
       calls := [ {| call := c; result := o |} ] |}.

(** An attribute of the client, read in the current world. *)
Definition attribute (read : Library W -> Client -> W -> value) (mc : Client) : M value :=
  fun s => {| outcome := Return (read lib mc (world s)); after := s; calls := [] |}.

End Bridge.

Declare Scope bridge_scope.
Delimit Scope bridge_scope with B.
Notation "x <- m ;; k" := (bind m (fun x => k))
(at level 61, m at next level, right associativity) : bridge_scope.
Notation "m ;;; k" := (bind m (fun _ => k))
(at level 61, right associativity) : bridge_scope.

(* ================================================================== *)
(** * The command handlers *)

(** The two shapes of a response object. *)
Definition success (cmd_id data : value) : value :=
  PyDict [("id", cmd_id); ("success", PyBool true); ("data", data)].

Definition failure (cmd_id : value) (error : string) : value :=
  PyDict [("id", cmd_id); ("success", PyBool false); ("error", PyStr error)].

Definition NOT_CONNECTED : string := "Not connected".
Definition NOT_INSTALLED : string :=
  "meshcore library not installed. Run: pip install meshcore".
Definition TCP_NOT_SUPPORTED : string :=
  "TCP not supported - meshcore TCPConnection not available".
Definition NO_DEVICE_RESPONSE : string :=
  "No response from device â€” check connection and ensure it is a Companion node (not a Repeater)".
Definition NO_STATUS_RECEIVED : string := "No status received".

(** [_serialize_self_info(self, info)] *)
Definition _serialize_self_info (info : value) : Outcome value :=
  (lat <- or_else (get info "adv_lat" PyNone) (get info "latitude" PyNone) ;;
   lon <- or_else (get info "adv_lon" PyNone) (get info "longitude" PyNone) ;;
   (* Filter out 0,0 (no GPS) *)
   let lat := if eq_zero lat then PyNone else lat in
   let lon := if eq_zero lon then PyNone else lon in
   public_key <- get info "public_key" (PyStr "") ;;
   name <- get info "name" (PyStr "") ;;
   adv_type <- get info "adv_type" PyNone ;;
   tx_power <- get info "tx_power" PyNone ;;
   max_tx_power <- get info "max_tx_power" PyNone ;;
   radio_freq <- get info "radio_freq" PyNone ;;
   radio_bw <- get info "radio_bw" PyNone ;;
   radio_sf <- get info "radio_sf" PyNone ;;
   radio_cr <- get info "radio_cr" PyNone ;;
   Return (PyDict [("public_key", public_key);
                   ("name", name);
                   ("adv_type", adv_type);
                   ("tx_power", tx_power);
                   ("max_tx_power", max_tx_power);
                   ("radio_freq", radio_freq);
                   ("radio_bw", radio_bw);
                   ("radio_sf", radio_sf);
                   ("radio_cr", radio_cr);
                   ("latitude", lat);
                   ("longitude", lon)]))%O.

(** The body of the [for key, contact in ...items()] loop of
    [cmd_get_contacts]: the record appended for one contact. *)
Definition serialize_contact (key : string) (contact : value) : Outcome value :=
  (lat <- or_else (or_else (get contact "adv_lat" PyNone) (get contact "latitude" PyNone))
                  (get contact "lat" PyNone) ;;
   lon <- or_else (or_else (get contact "adv_lon" PyNone) (get contact "longitude" PyNone))
                  (get contact "lon" PyNone) ;;
   (* Filter out 0,0 (no GPS) *)
   let lat := if eq_zero lat then PyNone else lat in
   let lon := if eq_zero lon then PyNone else lon in
   adv_name <- get contact "adv_name" (PyStr "") ;;
   name <- get contact "name" (PyStr "") ;;
   rssi <- get contact "rssi" PyNone ;;
   snr <- get contact "snr" PyNone ;;
   adv_type <- get contact "type" PyNone ;;
   Return (PyDict [("public_key", PyStr key);
                   ("adv_name", adv_name);
                   ("name", name);
                   ("rssi", rssi);
                   ("snr", snr);
                   ("adv_type", adv_type);
                   ("latitude", lat);
                   ("longitude", lon)]))%O.

(** The whole loop: [contacts] is the list built so far. *)
Fixpoint serialize_contacts (items : list (string * value)) (contacts : list value)
  : Outcome (list value) :=
  match items with
  | [] => Return contacts
  | (key, contact) :: rest =>
      (c <- serialize_contact key contact ;;
       serialize_contacts rest (contacts ++ [c]))%O
  end.

Section Handlers.

Context `{RT : Runtime}.

Local Open Scope bridge_scope.

(** [self.meshcore.<attr>]: the client behind the handle. *)
Definition deref_meshcore (attr : string) : M Client :=
  self <- get_self ;;
  match meshcore self with
  | Some mc => ret mc
  | None => raise (AttributeError PyNone attr)
  end.

(** The guard of every session command:
    [if not self.connected or not self.meshcore]. *)
Definition not_ready (self : MeshCoreBridge) : bool :=
  negb (connected self) || negb (present (meshcore self)).

Definition cmd_disconnect (cmd_id : value) : M value :=
  self <- get_self ;;
  (match meshcore self with
   | Some mc =>
       try_except (perform (Invoke mc disconnect)) (fun _ => ret PyNone)
   | None => ret PyNone
   end) ;;;
  assign (with_meshcore None) ;;;
  assign (with_connection None) ;;;
  assign (with_connected false) ;;;
  ret (success cmd_id (PyDict [("connected", PyBool false)])).

(** Lines 118-142 of [cmd_connect]: what follows once [self.connection]
    is set, on either transport. *)
Definition cmd_connect_handshake (cmd_id : value) : M value :=
  self <- get_self ;;
  let mc := MeshCore (connection self) in
  perform (NewMeshCore mc) ;;;
  assign (with_meshcore (Some mc)) ;;;
  mc <- deref_meshcore "connect" ;;
  result <- perform (Invoke mc connect) ;;
  if is_None result then
    assign (with_meshcore None) ;;;
    assign (with_connection None) ;;;
    ret (failure cmd_id NO_DEVICE_RESPONSE)
  else
    assign (with_connected true) ;;;
    (* Get initial info *)
    mc <- deref_meshcore "self_info" ;;
    info <- attribute (@self_info W) mc ;;
    let info := if truthy info then info else PyDict [] in
    serialized <- lift (_serialize_self_info info) ;;
    ret (success cmd_id (PyDict [("connected", PyBool true);
                                 ("self_info", serialized)])).

Definition cmd_connect (cmd_id cmd_data : value) : M value :=
  if negb MESHCORE_AVAILABLE then
    ret (failure cmd_id NOT_INSTALLED)
  else
    self <- get_self ;;
    (if connected self then cmd_disconnect cmd_id else ret PyNone) ;;;
    connection_type <- lift (get cmd_data "type" (PyStr "serial")) ;;
    if eq_str connection_type "tcp" then
      if negb TCP_AVAILABLE then
        ret (failure cmd_id TCP_NOT_SUPPORTED)
      else
        host <- lift (get cmd_data "host" (PyStr "localhost")) ;;
        port <- lift (get cmd_data "tcp_port" (PyInt 4403)) ;;
        let cx := TCPConnection host port in
        perform (NewConnection cx) ;;;
        assign (with_connection (Some cx)) ;;;
        cmd_connect_handshake cmd_id
    else
      port <- lift (get cmd_data "port" (PyStr "/dev/ttyACM0")) ;;
      baud <- lift (get cmd_data "baud" (PyInt 115200)) ;;
      let cx := SerialConnection port baud in
      perform (NewConnection cx) ;;;
      assign (with_connection (Some cx)) ;;;
      cmd_connect_handshake cmd_id.

Definition cmd_get_self_info (cmd_id : value) : M value :=
  self <- get_self ;;
  if not_ready self then ret (failure cmd_id NOT_CONNECTED)
  else
    mc <- deref_meshcore "self_info" ;;
    info <- attribute (@self_info W) mc ;;
    let info := if truthy info then info else PyDict [] in
    serialized <- lift (_serialize_self_info info) ;;
    ret (success cmd_id serialized).

Definition cmd_get_contacts (cmd_id : value) : M value :=
  self <- get_self ;;
  if not_ready self then ret (failure cmd_id NOT_CONNECTED)
  else
    mc <- deref_meshcore "commands" ;;
    perform (Invoke mc commands_get_contacts) ;;;
    mc <- deref_meshcore "contacts" ;;
    table <- attribute (@contacts W) mc ;;
    items <- lift (items table) ;;
    contacts <- lift (serialize_contacts items []) ;;
    ret (success cmd_id (PyList contacts)).

Definition cmd_send_message (cmd_id cmd_data : value) : M value :=
  self <- get_self ;;
  if not_ready self then ret (failure cmd_id NOT_CONNECTED)
  else
    text <- lift (get cmd_data "text" (PyStr "")) ;;
    to_key <- lift (get cmd_data "to" PyNone) ;;
    (if truthy to_key then
       mc <- deref_meshcore "commands" ;;
       perform (Invoke mc (commands_send_msg to_key text))
     else
       mc <- deref_meshcore "commands" ;;
       perform (Invoke mc (commands_send_chan_msg (PyInt 0) text))) ;;;
    ret (success cmd_id (PyDict [("sent", PyBool true)])).

Definition cmd_send_advert (cmd_id : value) : M value :=
  self <- get_self ;;
  if not_ready self then ret (failure cmd_id NOT_CONNECTED)
  else
    mc <- deref_meshcore "commands" ;;
    perform (Invoke mc commands_send_advert) ;;;
    ret (success cmd_id (PyDict [("sent", PyBool true)])).

Definition cmd_login (cmd_id cmd_data : value) : M value :=
  self <- get_self ;;
  if not_ready self then ret (failure cmd_id NOT_CONNECTED)
  else
    public_key <- lift (get cmd_data "public_key" (PyStr "")) ;;
    password <- lift (get cmd_data "password" (PyStr "")) ;;
    mc <- deref_meshcore "commands" ;;
    perform (Invoke mc (commands_send_login public_key password)) ;;;
    ret (success cmd_id (PyDict [("logged_in", PyBool true)])).

Definition cmd_get_status (cmd_id cmd_data : value) : M value :=
  self <- get_self ;;
  if not_ready self then ret (failure cmd_id NOT_CONNECTED)
  else
    public_key <- lift (get cmd_data "public_key" (PyStr "")) ;;
    mc <- deref_meshcore "commands" ;;
    status <- perform (Invoke mc (commands_req_status_sync public_key (PyInt 10))) ;;
    if truthy status then
      bat_mv <- lift (get status "bat_mv" PyNone) ;;
      up_secs <- lift (get status "up_secs" PyNone) ;;
      tx_power <- lift (get status "tx_power" PyNone) ;;
      radio_freq <- lift (get status "radio_freq" PyNone) ;;
      radio_bw <- lift (get status "radio_bw" PyNone) ;;
      radio_sf <- lift (get status "radio_sf" PyNone) ;;
      radio_cr <- lift (get status "radio_cr" PyNone) ;;
      ret (success cmd_id (PyDict [("bat_mv", bat_mv);
                                   ("up_secs", up_secs);
                                   ("tx_power", tx_power);
                                   ("radio_freq", radio_freq);
                                   ("radio_bw", radio_bw);
                                   ("radio_sf", radio_sf);
                                   ("radio_cr", radio_cr)]))
    else
      ret (failure cmd_id NO_STATUS_RECEIVED).

Definition cmd_set_name (cmd_id cmd_data : value) : M value :=
  self <- get_self ;;
  if not_ready self then ret (failure cmd_id NOT_CONNECTED)
  else
    name <- lift (get cmd_data "name" (PyStr "")) ;;
    mc <- deref_meshcore "commands" ;;
    perform (Invoke mc (commands_set_name name)) ;;;
    ret (success cmd_id (PyDict [("name", name)])).

Definition cmd_set_radio (cmd_id cmd_data : value) : M value :=
  self <- get_self ;;
  if not_ready self then ret (failure cmd_id NOT_CONNECTED)
  else
    freq <- lift (get cmd_data "freq" PyNone) ;;
    bw <- lift (get cmd_data "bw" PyNone) ;;
    sf <- lift (get cmd_data "sf" PyNone) ;;
    cr <- lift (get cmd_data "cr" PyNone) ;;
    mc <- deref_meshcore "commands" ;;
    perform (Invoke mc (commands_set_radio freq bw sf cr)) ;;;
    ret (success cmd_id (PyDict [("set", PyBool true)])).

Definition cmd_shutdown (cmd_id : value) : M value :=
  assign (with_running false) ;;;
  self <- get_self ;;
  (if connected self then cmd_disconnect cmd_id else ret PyNone) ;;;
  ret (success cmd_id (PyDict [("shutdown", PyBool true)])).

(** The [if/elif] chain of [handle_command], inside its [try]. *)
Definition dispatch (cmd cmd_id cmd_data : value) : M value :=
  if eq_str cmd "connect" then cmd_connect cmd_id cmd_data
  else if eq_str cmd "disconnect" then cmd_disconnect cmd_id
  else if eq_str cmd "get_self_info" then cmd_get_self_info cmd_id
  else if eq_str cmd "get_contacts" then cmd_get_contacts cmd_id
  else if eq_str cmd "send_message" then cmd_send_message cmd_id cmd_data
  else if eq_str cmd "send_advert" then cmd_send_advert cmd_id
  else if eq_str cmd "login" then cmd_login cmd_id cmd_data
  else if eq_str cmd "get_status" then cmd_get_status cmd_id cmd_data
  else if eq_str cmd "set_name" then cmd_set_name cmd_id cmd_data
  else if eq_str cmd "set_radio" then cmd_set_radio cmd_id cmd_data
  else if eq_str cmd "shutdown" then cmd_shutdown cmd_id
  else if eq_str cmd "ping" then ret (success cmd_id (PyStr "pong"))
  else ret (failure cmd_id ("Unknown command: " ++ format cmd)).

(** The response built by the [except Exception as e] of [handle_command]. *)
Definition internal_error (cmd_id : value) (e : Exception) : value :=
  PyDict [("id", cmd_id); ("success", PyBool false);
          ("error", PyStr (str e)); ("traceback", PyStr (format_exc e))].

Definition handle_command (cmd_data : value) : M value :=
  cmd_id <- lift (get cmd_data "id" (PyStr "unknown")) ;;
  cmd <- lift (get cmd_data "cmd" (PyStr "")) ;;
  try_except_Exception (dispatch cmd cmd_id cmd_data)
                       (fun e => ret (internal_error cmd_id e)).

End Handlers.

(* ================================================================== *)
(** * The line loop *)

(** What one turn of [await asyncio.wait_for(reader.readline(), 1.0)],
    [decode('utf-8').strip()] and [json.loads] comes to. *)
Inductive Input : Type :=
| ReadTimeout                     (* wait_for raised asyncio.TimeoutError *)
| BlankLine                       (* the line is empty once stripped *)
| InvalidJson (e : string)        (* json.loads raised JSONDecodeError; [e] is its text *)
| ReadFault (e : Exception)       (* readline, decode or loads raised anything else *)
| JsonLine (cmd_data : value)     (* json.loads returned [cmd_data] *)
| Signal.                         (* SIGTERM or SIGINT arrives during this turn of
                                     the loop (while it waits for the line, or while
                                     the command of the line is handled): the
                                     handler runs, the turn goes on *)

(** What the process does that can be observed, in order. *)
Inductive Event : Type :=
| Called (x : Exchange)           (* a call into the meshcore package *)
| Stdout (line : value)           (* print(json.dumps(line), flush=True) *)
| Uncaught (e : Exception).       (* [e] leaves [run]: the process ends with it *)

(** The lines printed, in order. *)
Fixpoint stdout (trace : list Event) : list value :=
  match trace with
  | [] => []
  | Stdout line :: rest => line :: stdout rest
  | Called _ :: rest => stdout rest
  | Uncaught _ :: rest => stdout rest
  end.

(** The calls made into the package, in order. *)
Fixpoint called (trace : list Event) : list Exchange :=
  match trace with
  | [] => []
  | Called x :: rest => x :: called rest
  | Stdout _ :: rest => called rest
  | Uncaught _ :: rest => called rest
  end.

(** The exception the process ended with, if one left [run]. *)
Fixpoint uncaught (trace : list Event) : option Exception :=
  match trace with
  | [] => None
  | Uncaught e :: _ => Some e
  | _ :: rest => uncaught rest
  end.

Section Loop.

Context `{RT : Runtime}.

Record Process : Type := mkProcess {
  state : State;
  trace : list Event
}.

Definition print (line : value) (p : Process) : Process :=
  {| state := state p; trace := trace p ++ [Stdout line] |}.

(** Run a handler inside the process; its calls go to the trace. *)
Definition await {A : Type} (m : M A) (p : Process) : Outcome A * Process :=
  match m (state p) with
  | mkResult o s log => (o, {| state := s; trace := trace p ++ map Called log |})
  end.

Definition ready : value :=
  PyDict [("type", PyStr "ready");
          ("meshcore_available", PyBool MESHCORE_AVAILABLE);
          ("tcp_available", PyBool TCP_AVAILABLE)].

Definition invalid_json (e : string) : value :=
  failure (PyStr "unknown") ("Invalid JSON: " ++ e).

(** [shutdown_handler], run by the signal handlers [run] installs. *)
Definition shutdown_handler (p : Process) : Process :=
  {| state := {| self := with_running false (self (state p)); world := world (state p) |};
     trace := trace p |}.

(** An exception that nothing catches leaves [run]. *)
Definition die (e : Exception) (p : Process) : Process :=
  {| state := state p; trace := trace p ++ [Uncaught e] |}.

(** The turns of the [while self.running] loop of [run]: the process when
    the loop is left, and the input it has not read. [awaiting] says that
    the turn has begun (the test of [self.running] is behind it). *)
Fixpoint turns (awaiting : bool) (input : list Input) (p : Process)
  : Process * list Input :=
  if awaiting || running (self (state p)) then
    match input with
    | [] => (p, [])                                (* EOF - stdin closed *)
    | Signal :: rest => turns true rest (shutdown_handler p)
    | ReadTimeout :: rest => turns false rest p    (* No input, continue loop *)
    | BlankLine :: rest => turns false rest p
    | InvalidJson e :: rest => turns false rest (print (invalid_json e) p)
    | ReadFault e :: rest =>
        if exc_is_Exception e
        then turns false rest (print (failure (PyStr "unknown") (str e)) p)
        else (die e p, rest)
    | JsonLine cmd_data :: rest =>
        match await (handle_command cmd_data) p with
        | (Return response, p') => turns false rest (print response p')
        | (Raise e, p') =>
            if exc_is_Exception e
            then turns false rest (print (failure (PyStr "unknown") (str e)) p')
            else (die e p', rest)
        end
    end
  else (p, input).

Definition loop (input : list Input) (p : Process) : Process * list Input :=
  turns false input p.

(** The process as [main] creates it, in world [w]: [MeshCoreBridge()]. *)
Definition spawn (w : W) : Process :=
  {| state := {| self := __init__; world := w |}; trace := [] |}.

Definition run (input : list Input) (w : W) : Process * list Input :=
  let p := print ready (spawn w) in
  let (p, unread) := loop input p in
  match uncaught (trace p) with
  | Some _ => (p, unread)      (* the exception left the loop, and leaves [run] *)
  | None =>
      (* Clean disconnect *)
      let p := if connected (self (state p))
               then snd (await (cmd_disconnect (PyStr "shutdown")) p)
               else p in
      (p, unread)
  end.

End Loop.

(* ================================================================== *)
(** * Concrete environments, for the examples *)

Definition plain_repr (v : value) : string := "<" ++ type_name v ++ ">".

Definition plain_format_exc (e : Exception) : string :=
  "Traceback (most recent call last): " ++ exc_class e ++ ": " ++ str e.

(** A device that never answers: every call returns [None]. *)
Definition silent_library : Library unit :=
  {| answer := fun _ w => (Return PyNone, w);
     self_info := fun _ _ => PyNone;
     contacts := fun _ _ => PyDict [] |}.

Definition silent : Runtime :=
  {| W := unit; lib := silent_library;
     MESHCORE_AVAILABLE := true; TCP_AVAILABLE := true;
     repr := plain_repr; format_exc := plain_format_exc |}.

(** What a companion node without a GPS fix reports about itself. *)
Definition node_identity : value :=
  PyDict [("name", PyStr "node-1"); ("public_key", PyStr "a1b2c3");
          ("adv_lat", PyFloat 0); ("adv_lon", PyFloat 0)].

(** A companion node that answers the handshake, and nothing after it. *)
Definition companion_library : Library unit :=
  {| answer := fun c w =>
       match c with
       | Invoke _ connect => (Return node_identity, w)
       | _ => (Return PyNone, w)
       end;
     self_info := fun _ _ => node_identity;
     contacts := fun _ _ => PyDict [] |}.

Definition companion : Runtime :=
  {| W := unit; lib := companion_library;
     MESHCORE_AVAILABLE := true; TCP_AVAILABLE := true;
     repr := plain_repr; format_exc := plain_format_exc |}.

Definition OSError (msg : string) : Exception :=
  {| exc_class := "OSError"; exc_message := msg; exc_is_Exception := true |}.

(** The same node behind a line that fails on every write after the
    handshake: the send methods raise. *)
Definition failing_library : Library unit :=
  {| answer := fun c w =>
       match c with
       | Invoke _ connect => (Return node_identity, w)
       | Invoke _ (commands_send_msg _ _) => (Raise (OSError "write failed"), w)
       | Invoke _ (commands_send_chan_msg _ _) => (Raise (OSError "write failed"), w)
       | _ => (Return PyNone, w)
       end;
     self_info := fun _ _ => node_identity;
     contacts := fun _ _ => PyDict [] |}.

Definition failing : Runtime :=
  {| W := unit; lib := failing_library;
     MESHCORE_AVAILABLE := true; TCP_AVAILABLE := true;
     repr := plain_repr; format_exc := plain_format_exc |}.

(** [asyncio.CancelledError], a [BaseException] that is not an
    [Exception]. *)
Definition CancelledError : Exception :=
  {| exc_class := "CancelledError"; exc_message := ""; exc_is_Exception := false |}.

(** The same node, with writes that are cancelled while they are awaited:
    the send methods raise [asyncio.CancelledError]. *)
Definition cancelling_library : Library unit :=
  {| answer := fun c w =>
       match c with
       | Invoke _ connect => (Return node_identity, w)
       | Invoke _ (commands_send_msg _ _) => (Raise CancelledError, w)
       | Invoke _ (commands_send_chan_msg _ _) => (Raise CancelledError, w)
       | _ => (Return PyNone, w)
       end;
     self_info := fun _ _ => node_identity;
     contacts := fun _ _ => PyDict [] |}.

Definition cancelling : Runtime :=
  {| W := unit; lib := cancelling_library;
     MESHCORE_AVAILABLE := true; TCP_AVAILABLE := true;
     repr := plain_repr; format_exc := plain_format_exc |}.

(** What [StreamReader.readline] raises on a line longer than its limit
    of 64 KiB. *)
Definition LINE_TOO_LONG : Exception :=
  {| exc_class := "ValueError";
     exc_message := "Separator is not found, and chunk exceed the limit";
     exc_is_Exception := true |}.

(** A session that is up, on the default serial port. *)
Definition default_port : Connection :=
  SerialConnection (PyStr "/dev/ttyACM0") (PyInt 115200).

Definition up : MeshCoreBridge :=
  {| connection := Some default_port;
     meshcore := Some (MeshCore (Some default_port));
     connected := true; running := true |}.

(** A request object with an id, a command and parameters. *)
Definition request (id cmd : string) (params : list (string * value))
  : list (string * value) :=
  ("id", PyStr id) :: ("cmd", PyStr cmd) :: params.

(** The session invariant: a connected bridge holds both handles. *)
Definition session_ok (self : MeshCoreBridge) : Prop :=
  connected self = true ->
  present (meshcore self) = true /\ present (connection self) = true.

(** The session is down and nothing is held. *)
Definition cleared (self : MeshCoreBridge) : Prop :=
  connected self = false /\ meshcore self = None /\ connection self = None.

(* ================================================================== *)
(** * Vocabulary of the statements *)

(** The correlation id [handle_command] reads off a request object. *)
Definition request_id (request : list (string * value)) : value :=
  match lookup "id" request with
  | Some v => v
  | None => PyStr "unknown"
  end.

(** The command name [handle_command] reads off a request object. *)
Definition request_cmd (request : list (string * value)) : value :=
  match lookup "cmd" request with
  | Some v => v
  | None => PyStr ""
  end.

(** The request names this command: the test of the [if/elif] chain. *)
Definition names (request : list (string * value)) (command : string) : bool :=
  eq_str (request_cmd request) command.

(** The commands that need a session. *)
Definition session_commands : list string :=
  ["get_self_info"; "get_contacts"; "send_message"; "send_advert";
   "login"; "get_status"; "set_name"; "set_radio"].

(** The requests of a sequence that get read: all of them up to and
    including the first [shutdown]. *)
Fixpoint served (requests : list (list (string * value))) : list (list (string * value)) :=
  match requests with
  | [] => []
  | r :: rest => if names r "shutdown" then [r] else r :: served rest
  end.

(** The input line that carries a request object. *)
Definition request_line (request : list (string * value)) : Input :=
  JsonLine (PyDict request).

(** The request objects among the lines of an input, in the order of the
    input. *)
Fixpoint requests_of (input : list Input) : list (list (string * value)) :=
  match input with
  | [] => []
  | JsonLine (PyDict d) :: rest => d :: requests_of rest
  | _ :: rest => requests_of rest
  end.

(** An input in which every line read carries a request object: between
    the requests the read may time out and blank lines may come, but there
    is no line that fails to parse or to be read (a line longer than the
    64 KiB limit of the reader is such a line), no JSON that is not an
    object, and no signal. *)
Definition only_requests (input : list Input) : bool :=
  forallb (fun i => match i with
                    | ReadTimeout | BlankLine | JsonLine (PyDict _) => true
                    | _ => false
                    end) input.

(** No request before the last one is a [shutdown]. *)
Definition no_early_shutdown (requests : list (list (string * value))) : bool :=
  forallb (fun r => negb (names r "shutdown")) (removelast requests).

(** The fields of [self] once the session is dropped. *)
Definition dropped (self : MeshCoreBridge) : MeshCoreBridge :=
  {| connection := None; meshcore := None; connected := false; running := running self |}.

(** A coordinate field that is missing, [None], or a float zero. *)
Definition zero_or_missing (v : value) : bool :=
  match v with
  | PyNone => true
  | PyFloat x => PrimFloat.eqb x 0%float
  | _ => false
  end.

(** None of the listed fields of a record holds a position. *)
Definition no_fix (record : list (string * value)) (keys : list string) : bool :=
  forallb (fun k => zero_or_missing (field (PyDict record) k)) keys.

(** A record emitted with no zero coordinate. *)
Definition no_zero_emitted (record : value) : Prop :=
  eq_zero (field record "latitude") = false /\
  eq_zero (field record "longitude") = false.

(** The first of the listed fields of a record that holds a truthy
    value, else the last of them: what [a or b or c] reads. *)
Fixpoint first_truthy (record : list (string * value)) (keys : list string) : value :=
  match keys with
  | [] => PyNone
  | [k] => field (PyDict record) k
  | k :: rest =>
      if truthy (field (PyDict record) k) then field (PyDict record) k
      else first_truthy record rest
  end.

(** The zero filter applied to a coordinate. *)
Definition drop_zero (v : value) : value :=
  if eq_zero v then PyNone else v.

Section Vocabulary.

Context `{RT : Runtime}.

(** The response of a handler, when it returns one, carries [cmd_id]. *)
Definition answers (cmd_id : value) (r : Result value) : Prop :=
  forall v, outcome r = Return v -> field v "id" = cmd_id.

(** A handler that leaves every field of [self] as it found it. *)
Definition frames (cmd_id : value) (m : M value) : Prop :=
  forall s, self (after (m s)) = self s /\ answers cmd_id (m s).

(** A handler that answers under its id, leaves [running] alone and
    keeps the session invariant. *)
Definition sound (cmd_id : value) (m : M value) : Prop :=
  forall s,
    answers cmd_id (m s) /\
    running (self (after (m s))) = running (self s) /\
    (session_ok (self s) -> session_ok (self (after (m s)))).

(** What the guard of a session command answers when the session is down. *)
Definition refused (cmd_id : value) (s : State) : Result value :=
  mkResult (Return (failure cmd_id NOT_CONNECTED)) s [].

End Vocabulary.

(* ================================================================== *)
(** * Symbolic execution of the handlers *)

Ltac unfold_monad :=
  unfold deref_meshcore, not_ready;
  unfold bind, ret, raise, lift, try_except, get_self, assign, perform, attribute.

Ltac reduce :=
  cbn [outcome after calls self world fst snd app
       connection meshcore connected running
       with_connection with_meshcore with_connected with_running
       present negb orb andb].

Ltac scrutinee x :=
  lazymatch x with
  | context [match ?y with _ => _ end] => scrutinee y
  | _ => x
  end.

(** One step: split on whatever the program branches on next. *)
Ltac branch :=
  match goal with
  | |- context [match ?x with _ => _ end] =>
      let y := scrutinee x in destruct y eqn:?
  end; reduce.

Ltac execute := unfold_monad; reduce; repeat branch.

Ltac answered := intros ? E; inversion E; reflexivity.
Ltac framed := split; [reflexivity | answered].

(** The guard is closed: the handler stops at its first test. *)
Ltac guard_closed H :=
  unfold refused; unfold_monad; reduce;
  unfold not_ready in H; rewrite H; reflexivity.

(** The session invariant at the end of one path of a handler. *)
Ltac session_kept :=
  first [ exact (fun H => H) | idtac ];
  unfold session_ok; reduce;
  first [ assumption
        | intros; discriminate
        | intros; split; reflexivity
        | intros; congruence ].

(* ================================================================== *)
(** * Vocabulary of the further properties *)

(** A line the loop answers: anything but a timeout or a blank line. *)
Definition wants_response (i : Input) : bool :=
  match i with
  | ReadTimeout | BlankLine | Signal => false
  | InvalidJson _ | ReadFault _ | JsonLine _ => true
  end.

(** A read that fails with something that is no [Exception]. *)
Definition aborts_read (i : Input) : bool :=
  match i with
  | ReadFault e => negb (exc_is_Exception e)
  | _ => false
  end.

(** The entry of a termination signal. *)
Definition is_signal (i : Input) : bool :=
  match i with
  | Signal => true
  | _ => false
  end.

(** A line that carries a [shutdown] request. *)
Definition asks_shutdown (i : Input) : bool :=
  match i with
  | JsonLine (PyDict d) => names d "shutdown"
  | _ => false
  end.

(** [isinstance(v, dict)] *)
Definition is_dict (v : value) : bool :=
  match v with
  | PyDict _ => true
  | _ => false
  end.

(** The shape of a response line: an object with an [id], a boolean
    [success], and [data] when it succeeded or else a string [error]. *)
Definition is_response (line : value) : bool :=
  has_key line "id" &&
  match field line "success" with
  | PyBool true => has_key line "data" && negb (has_key line "error")
  | PyBool false =>
      negb (has_key line "data") &&
      match field line "error" with
      | PyStr _ => true
      | _ => false
      end
  | _ => false
  end.

(** The command names [handle_command] knows. *)
Definition known_commands : list string :=
  ["connect"; "disconnect"; "get_self_info"; "get_contacts"; "send_message";
   "send_advert"; "login"; "get_status"; "set_name"; "set_radio"; "shutdown"; "ping"].

(** The companion node in a runtime whose meshcore package has no
    [TCPConnection], and in one where the package is not installed. *)
Definition serial_only : Runtime :=
  {| W := unit; lib := companion_library;
     MESHCORE_AVAILABLE := true; TCP_AVAILABLE := false;
     repr := plain_repr; format_exc := plain_format_exc |}.

Definition not_installed : Runtime :=
  {| W := unit; lib := companion_library;
     MESHCORE_AVAILABLE := false; TCP_AVAILABLE := false;
     repr := plain_repr; format_exc := plain_format_exc |}.

(** A port with nothing behind it: the handshake raises. *)
Definition unplugged_library : Library unit :=
  {| answer := fun c w =>
       match c with
       | Invoke _ connect => (Raise (OSError "could not open port"), w)
       | _ => (Return PyNone, w)
       end;
     self_info := fun _ _ => PyNone;
     contacts := fun _ _ => PyDict [] |}.

Definition unplugged : Runtime :=
  {| W := unit; lib := unplugged_library;
     MESHCORE_AVAILABLE := true; TCP_AVAILABLE := true;
     repr := plain_repr; format_exc := plain_format_exc |}.

(** A node that knows two contacts once its contacts were refreshed; the
    world is whether the refresh has happened. *)
Definition two_contacts : list (string * value) :=
  [("a1", PyDict [("adv_name", PyStr "alice"); ("type", PyInt 1);
                  ("adv_lat", PyFloat 12.5); ("adv_lon", PyFloat (-3.25))]);
   ("b2", PyDict [("adv_name", PyStr "bob"); ("public_key", PyStr "ffff")])].

Definition roster_library : Library bool :=
  {| answer := fun c refreshed =>
       match c with
       | Invoke _ connect => (Return node_identity, refreshed)
       | Invoke _ commands_get_contacts => (Return PyNone, true)
       | _ => (Return PyNone, refreshed)
       end;
     self_info := fun _ _ => PyNone;
     contacts := fun _ refreshed => PyDict (if refreshed then two_contacts else []) |}.

Definition roster : Runtime :=
  {| W := bool; lib := roster_library;
     MESHCORE_AVAILABLE := true; TCP_AVAILABLE := true;
     repr := plain_repr; format_exc := plain_format_exc |}.

(** The keys of the two records the bridge emits, in order. *)
Definition self_info_keys : list string :=
  ["public_key"; "name"; "adv_type"; "tx_power"; "max_tx_power";
   "radio_freq"; "radio_bw"; "radio_sf"; "radio_cr"; "latitude"; "longitude"].

Definition contact_keys : list string :=
  ["public_key"; "adv_name"; "name"; "rssi"; "snr"; "adv_type"; "latitude"; "longitude"].

(** [list(obj.keys())] of an emitted object. *)
Definition keys (obj : value) : list string :=
  match obj with
  | PyDict d => map fst d
  | _ => []
  end.

(** The identity record of a node that reports nothing about itself. *)
Definition blank_identity : value :=
  PyDict [("public_key", PyStr ""); ("name", PyStr ""); ("adv_type", PyNone);
          ("tx_power", PyNone); ("max_tx_power", PyNone); ("radio_freq", PyNone);
          ("radio_bw", PyNone); ("radio_sf", PyNone); ("radio_cr", PyNone);
          ("latitude", PyNone); ("longitude", PyNone)].

(** A parameter of a request, or its default. *)
Definition param (d : list (string * value)) (key : string) (default : value) : value :=
  match lookup key d with
  | Some v => v
  | None => default
  end.

(** The transport a [connect] request asks for, defaults filled in. *)
Definition requested_connection (d : list (string * value)) : Connection :=
  if eq_str (param d "type" (PyStr "serial")) "tcp"
  then TCPConnection (param d "host" (PyStr "localhost")) (param d "tcp_port" (PyInt 4403))
  else SerialConnection (param d "port" (PyStr "/dev/ttyACM0")) (param d "baud" (PyInt 115200)).

(** What a call of [cmd_connect] may be, given the transport asked for. *)
Definition connects_to (cx : Connection) (x : Exchange) : Prop :=
  match call x with
  | NewConnection cx' => cx' = cx
  | NewMeshCore mc => mc = MeshCore (Some cx)
  | Invoke mc connect => mc = MeshCore (Some cx)
  | Invoke _ m => m = disconnect
  end.

(** The client of the session that is up, if one is. *)
Definition live (self : MeshCoreBridge) : option Client :=
  if connected self then meshcore self else None.

(** The methods that use a session: all but [connect] and [disconnect]. *)
Definition uses_session (m : Method) : bool :=
  match m with
  | connect | disconnect => false
  | _ => true
  end.

(** [Sessions before log after]: the calls of [log], made when the live
    client is [before], respect the session discipline and leave [after]
    live. A handshake is only made while no session is live, and opens
    one when it answers; [disconnect] closes the live session (or goes to
    a client that never came up); every other method goes to the live
    client; building objects does not matter. *)
Inductive Sessions : option Client -> list Exchange -> option Client -> Prop :=
| sessions_end (now : option Client) :
    Sessions now [] now
| sessions_build_connection (now after : option Client) cx o log :
    Sessions now log after ->
    Sessions now ({| call := NewConnection cx; result := o |} :: log) after
| sessions_build_client (now after : option Client) mc o log :
    Sessions now log after ->
    Sessions now ({| call := NewMeshCore mc; result := o |} :: log) after
| sessions_open (after : option Client) mc v log :
    is_None v = false ->
    Sessions (Some mc) log after ->
    Sessions None ({| call := Invoke mc connect; result := Return v |} :: log) after
| sessions_no_answer (after : option Client) mc v log :
    is_None v = true ->
    Sessions None log after ->
    Sessions None ({| call := Invoke mc connect; result := Return v |} :: log) after
| sessions_fault (after : option Client) mc e log :
    Sessions None log after ->
    Sessions None ({| call := Invoke mc connect; result := Raise e |} :: log) after
| sessions_close (after : option Client) mc o log :
    Sessions None log after ->
    Sessions (Some mc) ({| call := Invoke mc disconnect; result := o |} :: log) after
| sessions_close_stale (after : option Client) mc o log :
    Sessions None log after ->
    Sessions None ({| call := Invoke mc disconnect; result := o |} :: log) after
| sessions_use (after : option Client) mc m o log :
    uses_session m = true ->
    Sessions (Some mc) log after ->
    Sessions (Some mc) ({| call := Invoke mc m; result := o |} :: log) after.

Section MoreVocabulary.

Context `{RT : Runtime}.

(** Whatever a computation answers is a well-shaped response. *)
Definition shaped (m : M value) : Prop :=
  forall s v, outcome (m s) = Return v -> is_response v = true.

(** A computation whose calls respect the session discipline. *)
Definition disciplined (m : M value) : Prop :=
  forall s, Sessions (live (self s)) (calls (m s)) (live (self (after (m s)))).

(** A package whose calls raise nothing but instances of [Exception]. *)
Definition raises_Exceptions_only : Prop :=
  forall c w e, fst (answer lib c w) = Raise e -> exc_is_Exception e = true.

(** A computation that raises nothing but instances of [Exception]. *)
Definition catchable (m : M value) : Prop :=
  forall s e, outcome (m s) = Raise e -> exc_is_Exception e = true.

(** [self.meshcore.self_info or {}]: the identity the client has cached,
    read in a given world. *)
Definition cached_info (mc : Client) (w : W) : value :=
  let info := self_info lib mc w in
  if truthy info then info else PyDict [].

(** The calls by which a session is opened on a transport, from a given
    world on: the transport is built, the client is built on it, the
    handshake is made on that client; a constructor that raises ends
    them. *)
Definition handshake_calls (cx : Connection) (w : W) : list Exchange :=
  let mc := MeshCore (Some cx) in
  match answer lib (NewConnection cx) w with
  | (Raise e, _) => [ {| call := NewConnection cx; result := Raise e |} ]
  | (Return built, w1) =>
      {| call := NewConnection cx; result := Return built |} ::
      match answer lib (NewMeshCore mc) w1 with
      | (Raise e, _) => [ {| call := NewMeshCore mc; result := Raise e |} ]
      | (Return client, w2) =>
          [ {| call := NewMeshCore mc; result := Return client |};
            {| call := Invoke mc connect;
               result := fst (answer lib (Invoke mc connect) w2) |} ]
      end
  end.

End MoreVocabulary.

Ltac shaped_done := intros ? E; inversion E; reflexivity.

(** Use what the execution learnt about the fields of [self]. *)
Ltac resync :=
  repeat match goal with
         | H : meshcore ?b = _ |- context [meshcore ?b] => rewrite H
         | H : connected ?b = _ |- context [connected ?b] => rewrite H
         end;
  repeat match goal with
         | H : Some ?a = Some ?b |- _ =>
             first [ subst a | subst b | (injection H; clear H; intros H; try subst) ]
         end;
  reduce.

(** Check a concrete call log against the session discipline. *)
Ltac sessions :=
  repeat first
    [ apply sessions_end
    | apply sessions_build_connection
    | apply sessions_build_client
    | apply sessions_open; [assumption|]
    | apply sessions_no_answer; [assumption|]
    | apply sessions_fault
    | apply sessions_close
    | apply sessions_close_stale
    | apply sessions_use; [reflexivity|] ].

(** Go through the entries of a concrete call log. *)
Ltac log_cases :=
  cbn [In];
  repeat match goal with
         | H : _ \/ _ |- _ => destruct H
         | H : False |- _ => destruct H
         | H : mkExchange _ _ = mkExchange _ _ |- _ => inversion H; clear H; subst
         | H : mkExchange _ _ = ?x |- _ => subst x
         end.

(** Run a session command whose guard is open, up to its device call. *)
Ltac through_the_guard C M :=
  cbv zeta; unfold param; cbn [get]; unfold_monad;
  repeat (progress (rewrite ?C, ?M; reduce)).

(** What a path of a handler raises, if it raises, is an [Exception]. *)
Create HintDb caught.
Ltac caught := intros ? E; try discriminate E; injection E as <-; eauto with caught.

(** ... and split on what that one call answers. *)
Ltac one_call :=
  match goal with
  | |- context [answer ?l ?c ?w] =>
      destruct (answer l c w) as [[?v|?e] ?w']; reduce
  end;
  (split; [reflexivity | split]); intros; first [reflexivity | discriminate | congruence].

Unset Implicit Arguments.

(* ================================================================== *)
(** * Facts about Python values and the serializers *)

Lemma eq_str_true (v : value) (literal : string) :
  eq_str v literal = true -> v = PyStr literal.
Proof.
  destruct v; simpl; try discriminate.
  intros E. apply String.eqb_eq in E. now subst.
Qed.

Lemma get_field (d : list (string * value)) (key : string) :
  get (PyDict d) key PyNone = Return (field (PyDict d) key).
Proof. reflexivity. Qed.

Lemma or_else_Return (x y : value) :
  or_else (Return x) (Return y) = Return (if truthy x then x else y).
Proof. unfold or_else. simpl. destruct (truthy x); reflexivity. Qed.

(** The zero filter never lets a zero through. *)
Lemma drop_zero_nonzero (v : value) : eq_zero (drop_zero v) = false.
Proof. unfold drop_zero. destruct (eq_zero v) eqn:E; [reflexivity | exact E]. Qed.

Lemma zero_or_missing_falsy (v : value) :
  zero_or_missing v = true -> truthy v = false.
Proof.
  destruct v; simpl; try discriminate; auto.
  intros ->. reflexivity.
Qed.

Lemma zero_or_missing_dropped (v : value) :
  zero_or_missing v = true -> drop_zero v = PyNone.
Proof.
  unfold drop_zero. destruct v; simpl; try discriminate; auto.
  intros ->. reflexivity.
Qed.

Lemma no_fix_first_truthy (d : list (string * value)) (keys : list string) :
  no_fix d keys = true -> zero_or_missing (first_truthy d keys) = true.
Proof.
  unfold no_fix. induction keys as [|k [|k' rest] IH]; intros H.
  - reflexivity.
  - simpl in *. now rewrite andb_true_r in H.
  - change (forallb _ (k :: k' :: rest))
      with (zero_or_missing (field (PyDict d) k) &&
            forallb (fun k => zero_or_missing (field (PyDict d) k)) (k' :: rest)) in H.
    apply andb_true_iff in H as [Hk Hrest].
    change (first_truthy d (k :: k' :: rest))
      with (if truthy (field (PyDict d) k) then field (PyDict d) k
            else first_truthy d (k' :: rest)).
    rewrite (zero_or_missing_falsy _ Hk). auto.
Qed.

Lemma first_truthy_head (d : list (string * value)) (k k' : string) (rest : list string) (x : float) :
  lookup k d = Some (PyFloat x) -> PrimFloat.eqb x 0%float = false ->
  drop_zero (first_truthy d (k :: k' :: rest)) = PyFloat x.
Proof.
  intros L N.
  change (first_truthy d (k :: k' :: rest))
    with (if truthy (field (PyDict d) k) then field (PyDict d) k
          else first_truthy d (k' :: rest)).
  unfold field. rewrite L. unfold drop_zero. simpl. rewrite N. simpl. now rewrite N.
Qed.

(** ** Serialization *)

Lemma self_info_position (d : list (string * value)) :
  exists record,
    _serialize_self_info (PyDict d) = Return record /\
    field record "latitude" = drop_zero (first_truthy d ["adv_lat"; "latitude"]) /\
    field record "longitude" = drop_zero (first_truthy d ["adv_lon"; "longitude"]).
Proof.
  unfold _serialize_self_info.
  rewrite !get_field, !or_else_Return. cbn [obind get].
  eexists. split; [reflexivity|]. split; reflexivity.
Qed.

Lemma contact_position (key : string) (d : list (string * value)) :
  exists record,
    serialize_contact key (PyDict d) = Return record /\
    field record "latitude" = drop_zero (first_truthy d ["adv_lat"; "latitude"; "lat"]) /\
    field record "longitude" = drop_zero (first_truthy d ["adv_lon"; "longitude"; "lon"]).
Proof.
  unfold serialize_contact.
  rewrite !get_field, !or_else_Return. cbn [obind get].
  eexists. split; [reflexivity|]. split.
  - cbn. set (a := match lookup "adv_lat" d with Some v => v | None => PyNone end).
    destruct (truthy a) eqn:Ea; rewrite ?Ea; reflexivity.
  - cbn. set (a := match lookup "adv_lon" d with Some v => v | None => PyNone end).
    destruct (truthy a) eqn:Ea; rewrite ?Ea; reflexivity.
Qed.

Lemma serialize_contact_inv (key : string) (contact record : value) :
  serialize_contact key contact = Return record ->
  exists d, contact = PyDict d.
Proof.
  destruct contact; try discriminate. eauto.
Qed.

Lemma contact_no_zero (key : string) (contact record : value) :
  serialize_contact key contact = Return record -> no_zero_emitted record.
Proof.
  intros E. destruct (serialize_contact_inv _ _ _ E) as [d ->].
  destruct (contact_position key d) as (r & E' & Hlat & Hlon).
  rewrite E in E'. injection E' as <-.
  split; [rewrite Hlat | rewrite Hlon]; apply drop_zero_nonzero.
Qed.

(** Every record the loop of [cmd_get_contacts] appends is filtered. *)
Lemma serialize_contacts_no_zero (items : list (string * value)) :
  forall acc out,
    Forall no_zero_emitted acc ->
    serialize_contacts items acc = Return out ->
    Forall no_zero_emitted out.
Proof.
  induction items as [|[key contact] rest IH]; intros acc out Hacc E.
  - simpl in E. now injection E as <-.
  - simpl in E. destruct (serialize_contact key contact) as [c|e] eqn:Ec; [|discriminate].
    simpl in E. apply (IH (acc ++ [c])%list out); [|exact E].
    apply Forall_app. split; [exact Hacc|].
    constructor; [exact (contact_no_zero _ _ _ Ec) | constructor].
Qed.

(** The loop of [cmd_get_contacts] appends one record per entry of the
    table, the one [serialize_contact] makes of that entry. *)
Lemma serialize_contacts_each (items : list (string * value)) :
  forall acc out,
    serialize_contacts items acc = Return out ->
    exists records,
      out = (acc ++ records)%list /\
      Forall2 (fun kc c => serialize_contact (fst kc) (snd kc) = Return c) items records.
Proof.
  induction items as [|[key contact] rest IH]; intros acc out E.
  - simpl in E. injection E as <-. exists []. split; [now rewrite app_nil_r | constructor].
  - simpl in E. destruct (serialize_contact key contact) as [c|e] eqn:Ec; [|discriminate].
    simpl in E. destruct (IH _ _ E) as (records & -> & Each).
    exists (c :: records). split; [now rewrite <- app_assoc|].
    constructor; [exact Ec | exact Each].
Qed.

Lemma serialize_contacts_returns (items : list (string * value)) :
  forall acc,
    forallb (fun kc => is_dict (snd kc)) items = true ->
    exists out, serialize_contacts items acc = Return out.
Proof.
  induction items as [|[k c] l IH]; intros acc D; [now exists acc|].
  cbn [forallb snd] in D. apply andb_true_iff in D as [Dc Dl].
  destruct c; try discriminate.
  destruct (contact_position k entries) as (r & Er & _).
  simpl. rewrite Er. simpl. apply IH, Dl.
Qed.

Lemma first_truthy_second
    (d : list (string * value)) (k k' : string) (rest : list string) (x : float) :
  truthy (field (PyDict d) k) = false ->
  lookup k' d = Some (PyFloat x) -> PrimFloat.eqb x 0%float = false ->
  drop_zero (first_truthy d (k :: k' :: rest)) = PyFloat x.
Proof.
  intros T L N.
  change (first_truthy d (k :: k' :: rest))
    with (if truthy (field (PyDict d) k) then field (PyDict d) k
          else first_truthy d (k' :: rest)).
  rewrite T. destruct rest as [|k'' rest].
  - cbn [first_truthy]. unfold field. rewrite L. unfold drop_zero. simpl. now rewrite N.
  - apply first_truthy_head; assumption.
Qed.

Lemma first_truthy_third
    (d : list (string * value)) (k k' k'' : string) (x : float) :
  truthy (field (PyDict d) k) = false ->
  truthy (field (PyDict d) k') = false ->
  lookup k'' d = Some (PyFloat x) -> PrimFloat.eqb x 0%float = false ->
  drop_zero (first_truthy d [k; k'; k'']) = PyFloat x.
Proof.
  intros T T' L N. cbn [first_truthy]. rewrite T, T'.
  unfold field. rewrite L. unfold drop_zero. simpl. now rewrite N.
Qed.

(* ================================================================== *)
(** * The handlers, one by one *)

Section HandlerFacts.

Context `{RT : Runtime}.

Lemma frames_sound (cmd_id : value) (m : M value) : frames cmd_id m -> sound cmd_id m.
Proof.
  intros F s. destruct (F s) as [E A]. rewrite E. auto.
Qed.

Lemma dropped_cleared (b : MeshCoreBridge) : cleared (dropped b).
Proof. repeat split. Qed.

Lemma cleared_session_ok (b : MeshCoreBridge) : cleared b -> session_ok b.
Proof. intros [E _] C. congruence. Qed.

(** ** The session commands leave [self] alone *)

Lemma cmd_get_self_info_frames cmd_id : frames cmd_id (cmd_get_self_info cmd_id).
Proof. intros s. unfold cmd_get_self_info. execute; framed. Qed.

Lemma cmd_get_contacts_frames cmd_id : frames cmd_id (cmd_get_contacts cmd_id).
Proof. intros s. unfold cmd_get_contacts. execute; framed. Qed.

Lemma cmd_send_message_frames cmd_id cmd_data :
  frames cmd_id (cmd_send_message cmd_id cmd_data).
Proof. intros s. unfold cmd_send_message. execute; framed. Qed.

Lemma cmd_send_advert_frames cmd_id : frames cmd_id (cmd_send_advert cmd_id).
Proof. intros s. unfold cmd_send_advert. execute; framed. Qed.

Lemma cmd_login_frames cmd_id cmd_data : frames cmd_id (cmd_login cmd_id cmd_data).
Proof. intros s. unfold cmd_login. execute; framed. Qed.

Lemma cmd_get_status_frames cmd_id cmd_data :
  frames cmd_id (cmd_get_status cmd_id cmd_data).
Proof. intros s. unfold cmd_get_status. execute; framed. Qed.

Lemma cmd_set_name_frames cmd_id cmd_data : frames cmd_id (cmd_set_name cmd_id cmd_data).
Proof. intros s. unfold cmd_set_name. execute; framed. Qed.

Lemma cmd_set_radio_frames cmd_id cmd_data : frames cmd_id (cmd_set_radio cmd_id cmd_data).
Proof. intros s. unfold cmd_set_radio. execute; framed. Qed.

(** ** ... and are refused while the session is down *)

Lemma cmd_get_self_info_refused cmd_id s :
  not_ready (self s) = true -> cmd_get_self_info cmd_id s = refused cmd_id s.
Proof. intros H. unfold cmd_get_self_info. guard_closed H. Qed.

Lemma cmd_get_contacts_refused cmd_id s :
  not_ready (self s) = true -> cmd_get_contacts cmd_id s = refused cmd_id s.
Proof. intros H. unfold cmd_get_contacts. guard_closed H. Qed.

Lemma cmd_send_message_refused cmd_id cmd_data s :
  not_ready (self s) = true -> cmd_send_message cmd_id cmd_data s = refused cmd_id s.
Proof. intros H. unfold cmd_send_message. guard_closed H. Qed.

Lemma cmd_send_advert_refused cmd_id s :
  not_ready (self s) = true -> cmd_send_advert cmd_id s = refused cmd_id s.
Proof. intros H. unfold cmd_send_advert. guard_closed H. Qed.

Lemma cmd_login_refused cmd_id cmd_data s :
  not_ready (self s) = true -> cmd_login cmd_id cmd_data s = refused cmd_id s.
Proof. intros H. unfold cmd_login. guard_closed H. Qed.

Lemma cmd_get_status_refused cmd_id cmd_data s :
  not_ready (self s) = true -> cmd_get_status cmd_id cmd_data s = refused cmd_id s.
Proof. intros H. unfold cmd_get_status. guard_closed H. Qed.

Lemma cmd_set_name_refused cmd_id cmd_data s :
  not_ready (self s) = true -> cmd_set_name cmd_id cmd_data s = refused cmd_id s.
Proof. intros H. unfold cmd_set_name. guard_closed H. Qed.

Lemma cmd_set_radio_refused cmd_id cmd_data s :
  not_ready (self s) = true -> cmd_set_radio cmd_id cmd_data s = refused cmd_id s.
Proof. intros H. unfold cmd_set_radio. guard_closed H. Qed.

(** ** disconnect *)

Lemma cmd_disconnect_run cmd_id s :
  cmd_disconnect cmd_id s =
  match meshcore (self s) with
  | Some mc =>
      let (o, w) := answer lib (Invoke mc disconnect) (world s) in
      mkResult (Return (success cmd_id (PyDict [("connected", PyBool false)])))
               {| self := dropped (self s); world := w |}
               [ {| call := Invoke mc disconnect; result := o |} ]
  | None =>
      mkResult (Return (success cmd_id (PyDict [("connected", PyBool false)])))
               {| self := dropped (self s); world := world s |} []
  end.
Proof. unfold cmd_disconnect. execute; reflexivity. Qed.

Lemma cmd_disconnect_outcome cmd_id s :
  outcome (cmd_disconnect cmd_id s) =
    Return (success cmd_id (PyDict [("connected", PyBool false)])) /\
  self (after (cmd_disconnect cmd_id s)) = dropped (self s).
Proof.
  rewrite cmd_disconnect_run.
  destruct (meshcore (self s)); [destruct (answer _ _ _)|]; split; reflexivity.
Qed.

Lemma cmd_disconnect_sound cmd_id : sound cmd_id (cmd_disconnect cmd_id).
Proof.
  intros s. destruct (cmd_disconnect_outcome cmd_id s) as [O A].
  unfold answers. rewrite O, A. split; [answered | split; [reflexivity|]].
  intros _. apply cleared_session_ok, dropped_cleared.
Qed.

(** ** shutdown *)

Lemma cmd_shutdown_run cmd_id s :
  cmd_shutdown cmd_id s =
  if connected (self s) then
    match cmd_disconnect cmd_id {| self := with_running false (self s); world := world s |} with
    | mkResult _ s' log =>
        mkResult (Return (success cmd_id (PyDict [("shutdown", PyBool true)]))) s' log
    end
  else
    mkResult (Return (success cmd_id (PyDict [("shutdown", PyBool true)])))
             {| self := with_running false (self s); world := world s |} [].
Proof.
  unfold cmd_shutdown, cmd_disconnect. execute; reflexivity.
Qed.

Lemma cmd_shutdown_outcome cmd_id s :
  let r := cmd_shutdown cmd_id s in
  outcome r = Return (success cmd_id (PyDict [("shutdown", PyBool true)])) /\
  running (self (after r)) = false /\
  connected (self (after r)) = false /\
  session_ok (self (after r)).
Proof.
  cbv zeta. rewrite cmd_shutdown_run. unfold session_ok.
  destruct (connected (self s)) eqn:C.
  - rewrite cmd_disconnect_run. reduce.
    destruct (meshcore (self s)); [destruct (answer _ _ _)|]; reduce;
      repeat split; try reflexivity; discriminate.
  - reduce. rewrite C. repeat split; try reflexivity; discriminate.
Qed.

(** ** connect *)

Lemma cmd_connect_sound cmd_id cmd_data : sound cmd_id (cmd_connect cmd_id cmd_data).
Proof.
  intros s. unfold cmd_connect, cmd_connect_handshake, cmd_disconnect.
  execute; (split; [answered | split; [reflexivity | session_kept]]).
Qed.

(** The handshake answered nothing: the log tells. *)
Lemma cmd_connect_no_response cmd_id cmd_data s mc :
  In {| call := Invoke mc connect; result := Return PyNone |}
     (calls (cmd_connect cmd_id cmd_data s)) ->
  outcome (cmd_connect cmd_id cmd_data s) = Return (failure cmd_id NO_DEVICE_RESPONSE) /\
  cleared (self (after (cmd_connect cmd_id cmd_data s))).
Proof.
  unfold cmd_connect, cmd_connect_handshake, cmd_disconnect.
  execute; cbn [In]; intros H;
    repeat match goal with
           | H : _ \/ _ |- _ => destruct H
           | H : False |- _ => destruct H
           | H : mkExchange _ _ = mkExchange _ _ |- _ => inversion H; clear H; subst
           end;
    try discriminate;
    repeat split; reduce; assumption.
Qed.

End HandlerFacts.

(* ================================================================== *)
(** * handle_command *)

Section DispatchFacts.

Context `{RT : Runtime}.

Lemma try_except_Exception_returns
    (m : M value) (h : Exception -> M value) (s : State) (v : value) :
  outcome (m s) = Return v -> try_except_Exception m h s = m s.
Proof.
  unfold try_except_Exception. destruct (m s) as [[a|e] s1 l]; cbn; intros E;
    [reflexivity | discriminate].
Qed.

(** The [except Exception] of [handle_command] turns the raise of an
    [Exception] into a response, and lets any other raise through. *)
Lemma try_except_internal (m : M value) (cmd_id : value) (s : State) :
  let r := try_except_Exception m (fun e => ret (internal_error cmd_id e)) s in
  after r = after (m s) /\
  calls r = calls (m s) /\
  outcome r = match outcome (m s) with
              | Return v => Return v
              | Raise e => if exc_is_Exception e
                           then Return (internal_error cmd_id e)
                           else Raise e
              end.
Proof.
  unfold try_except_Exception, ret. destruct (m s) as [[a|e] s1 l]; cbn;
    [|destruct (exc_is_Exception e)]; rewrite ?app_nil_r; auto.
Qed.

Lemma handle_command_dict (d : list (string * value)) (s : State) :
  handle_command (PyDict d) s =
  try_except_Exception (dispatch (request_cmd d) (request_id d) (PyDict d))
                       (fun e => ret (internal_error (request_id d) e)) s.
Proof.
  unfold handle_command, bind, lift. cbn [get].
  fold (request_id d). fold (request_cmd d).
  destruct (try_except_Exception _ _ s). reflexivity.
Qed.

Lemma handle_command_not_dict (v : value) (s : State) :
  (forall d, v <> PyDict d) ->
  handle_command v s = mkResult (Raise (AttributeError v "get")) s [].
Proof.
  intros N. unfold handle_command, bind, lift.
  destruct v; try reflexivity. now destruct (N entries).
Qed.

Lemma dispatch_sound (cmd cmd_id cmd_data : value) (s : State) :
  let r := dispatch cmd cmd_id cmd_data s in
  answers cmd_id r /\
  running (self (after r)) = (if eq_str cmd "shutdown" then false else running (self s)) /\
  (session_ok (self s) -> session_ok (self (after r))).
Proof.
  cbv zeta. unfold dispatch.
  destruct (eq_str cmd "connect") eqn:E1.
  { apply eq_str_true in E1; subst. exact (cmd_connect_sound cmd_id cmd_data s). }
  destruct (eq_str cmd "disconnect") eqn:E2.
  { apply eq_str_true in E2; subst. exact (cmd_disconnect_sound cmd_id s). }
  destruct (eq_str cmd "get_self_info") eqn:E3.
  { apply eq_str_true in E3; subst.
    exact (frames_sound _ _ (cmd_get_self_info_frames cmd_id) s). }
  destruct (eq_str cmd "get_contacts") eqn:E4.
  { apply eq_str_true in E4; subst.
    exact (frames_sound _ _ (cmd_get_contacts_frames cmd_id) s). }
  destruct (eq_str cmd "send_message") eqn:E5.
  { apply eq_str_true in E5; subst.
    exact (frames_sound _ _ (cmd_send_message_frames cmd_id cmd_data) s). }
  destruct (eq_str cmd "send_advert") eqn:E6.
  { apply eq_str_true in E6; subst.
    exact (frames_sound _ _ (cmd_send_advert_frames cmd_id) s). }
  destruct (eq_str cmd "login") eqn:E7.
  { apply eq_str_true in E7; subst.
    exact (frames_sound _ _ (cmd_login_frames cmd_id cmd_data) s). }
  destruct (eq_str cmd "get_status") eqn:E8.
  { apply eq_str_true in E8; subst.
    exact (frames_sound _ _ (cmd_get_status_frames cmd_id cmd_data) s). }
  destruct (eq_str cmd "set_name") eqn:E9.
  { apply eq_str_true in E9; subst.
    exact (frames_sound _ _ (cmd_set_name_frames cmd_id cmd_data) s). }
  destruct (eq_str cmd "set_radio") eqn:E10.
  { apply eq_str_true in E10; subst.
    exact (frames_sound _ _ (cmd_set_radio_frames cmd_id cmd_data) s). }
  destruct (eq_str cmd "shutdown") eqn:E11.
  { destruct (cmd_shutdown_outcome cmd_id s) as (O & R & _ & K).
    split; [|split]; auto. intros v E. rewrite O in E. inversion E. reflexivity. }
  destruct (eq_str cmd "ping") eqn:E12.
  { unfold ret. cbn. split; [answered | split; auto]. }
  unfold ret. cbn. split; [answered | split; auto].
Qed.

(** What answers a request object carries the id of the request; what
    is raised instead is no [Exception]. *)
Lemma handle_command_sound (d : list (string * value)) (s : State) :
  let r := handle_command (PyDict d) s in
  (forall v, outcome r = Return v -> field v "id" = request_id d) /\
  (forall e, outcome r = Raise e -> exc_is_Exception e = false) /\
  running (self (after r)) = (if names d "shutdown" then false else running (self s)) /\
  (session_ok (self s) -> session_ok (self (after r))).
Proof.
  cbv zeta. rewrite handle_command_dict.
  destruct (try_except_internal (dispatch (request_cmd d) (request_id d) (PyDict d))
              (request_id d) s) as (A & _ & O).
  destruct (dispatch_sound (request_cmd d) (request_id d) (PyDict d) s) as (I & R & K).
  rewrite A, O. split; [|split; [|split; [exact R | exact K]]].
  - destruct (outcome (dispatch _ _ _ s)) as [v|e] eqn:E.
    + intros v' H. injection H as <-. exact (I v E).
    + destruct (exc_is_Exception e); intros v' H; [|discriminate].
      injection H as <-. reflexivity.
  - destruct (outcome (dispatch _ _ _ s)) as [v|e] eqn:E; [discriminate|].
    destruct (exc_is_Exception e) eqn:X; intros e' H; [discriminate|].
    now injection H as <-.
Qed.

Lemma handle_command_keeps_session (cmd_data : value) (s : State) :
  session_ok (self s) -> session_ok (self (after (handle_command cmd_data s))).
Proof.
  intros K. destruct cmd_data;
    try (rewrite handle_command_not_dict by (intros d; discriminate); exact K).
  now apply handle_command_sound.
Qed.

End DispatchFacts.

(* ================================================================== *)
(** * The loop *)

Section LoopFacts.

Context `{RT : Runtime}.

Lemma stdout_app (a b : list Event) : stdout (a ++ b) = (stdout a ++ stdout b)%list.
Proof.
  induction a as [|[x|line|e] a IH]; simpl;
    [reflexivity | exact IH | now rewrite IH | exact IH].
Qed.

Lemma stdout_calls (log : list Exchange) : stdout (map Called log) = [].
Proof. induction log; simpl; auto. Qed.

Lemma stdout_print (line : value) (p : Process) :
  stdout (trace (print line p)) = (stdout (trace p) ++ [line])%list.
Proof. unfold print. cbn [trace]. now rewrite stdout_app. Qed.

Lemma await_spec {A : Type} (m : M A) (p : Process) :
  await m p =
  (outcome (m (state p)),
   {| state := after (m (state p));
      trace := trace p ++ map Called (calls (m (state p))) |}).
Proof. unfold await. destruct (m (state p)). reflexivity. Qed.

Lemma loop_stopped (input : list Input) (p : Process) :
  running (self (state p)) = false -> loop input p = (p, input).
Proof. intros R. unfold loop. destruct input; cbn [turns orb]; rewrite R; reflexivity. Qed.

Lemma loop_request (cmd_data : value) (rest : list Input) (p : Process) :
  running (self (state p)) = true ->
  loop (JsonLine cmd_data :: rest) p =
  match await (handle_command cmd_data) p with
  | (Return response, p') => loop rest (print response p')
  | (Raise e, p') =>
      if exc_is_Exception e
      then loop rest (print (failure (PyStr "unknown") (str e)) p')
      else (die e p', rest)
  end.
Proof. intros R. unfold loop. cbn [turns orb]. rewrite R. reflexivity. Qed.

Lemma uncaught_app (a b : list Event) :
  uncaught (a ++ b) = match uncaught a with Some e => Some e | None => uncaught b end.
Proof.
  induction a as [|[x|line|e] a IH]; simpl; auto.
Qed.

Lemma uncaught_calls (log : list Exchange) : uncaught (map Called log) = None.
Proof. induction log; simpl; auto. Qed.

Lemma uncaught_print (line : value) (p : Process) :
  uncaught (trace (print line p)) = uncaught (trace p).
Proof.
  unfold print. cbn [trace]. rewrite uncaught_app.
  now destruct (uncaught (trace p)).
Qed.

Lemma uncaught_die (e : Exception) (p : Process) :
  uncaught (trace (die e p)) <> None.
Proof.
  unfold die. cbn [trace]. rewrite uncaught_app.
  destruct (uncaught (trace p)); discriminate.
Qed.

(** The loop answers the requests it is given, one line each, in the
    order read, up to the first shutdown. *)
Lemma loop_idle (i : Input) (rest : list Input) (p : Process) :
  running (self (state p)) = true ->
  i = ReadTimeout \/ i = BlankLine ->
  loop (i :: rest) p = loop rest p.
Proof.
  intros R [-> | ->]; unfold loop; cbn [turns orb]; rewrite R; reflexivity.
Qed.

Lemma loop_serves (input : list Input) :
  only_requests input = true ->
  forall p : Process,
    running (self (state p)) = true ->
    uncaught (trace (fst (loop input p))) = None ->
    exists responses,
      stdout (trace (fst (loop input p))) = (stdout (trace p) ++ responses)%list /\
      map (fun r => field r "id") responses = map request_id (served (requests_of input)).
Proof.
  induction input as [|i rest IH]; intros Q p R U.
  - exists []. unfold loop. cbn [turns orb]. rewrite R. cbn. now rewrite app_nil_r.
  - cbn [only_requests forallb] in Q. apply andb_true_iff in Q as [Qi Q].
    fold (only_requests rest) in Q.
    destruct i as [| |e|e|[ |b|n|x|t|l|d]|]; try discriminate Qi.
    + rewrite (loop_idle ReadTimeout rest p R) in * by auto. exact (IH Q p R U).
    + rewrite (loop_idle BlankLine rest p R) in * by auto. exact (IH Q p R U).
    + rewrite (loop_request _ _ _ R), await_spec in *.
      destruct (handle_command_sound d (state p)) as (I & X & R' & _).
      rewrite R in R'. cbn [requests_of served].
      destruct (outcome (handle_command (PyDict d) (state p))) as [v|e] eqn:O.
      * specialize (I v eq_refl).
        destruct (names d "shutdown").
        -- rewrite loop_stopped in * by exact R'.
           exists [v]. cbn [fst]. rewrite stdout_print. cbn [trace].
           rewrite stdout_app, stdout_calls, app_nil_r. cbn [map]. now rewrite I.
        -- destruct (IH Q (print v {| state := after (handle_command (PyDict d) (state p));
                                      trace := trace p ++
                                        map Called (calls (handle_command (PyDict d) (state p))) |})
                        R' U) as (responses & S & Ids).
           exists (v :: responses). rewrite S, stdout_print. cbn [trace].
           rewrite stdout_app, stdout_calls, app_nil_r, <- app_assoc. cbn [map app].
           now rewrite I, Ids.
      * rewrite (X e eq_refl) in *. cbn [fst] in U. now apply uncaught_die in U.
Qed.

Lemma served_all (requests : list (list (string * value))) :
  no_early_shutdown requests = true -> served requests = requests.
Proof.
  unfold no_early_shutdown.
  induction requests as [|d [|d' rest] IH]; intros H.
  - reflexivity.
  - simpl. now destruct (names d "shutdown").
  - change (removelast (d :: d' :: rest)) with (d :: removelast (d' :: rest)) in H.
    cbn [forallb] in H. apply andb_true_iff in H as [Hd Hrest].
    cbn [served]. apply negb_true_iff in Hd. rewrite Hd.
    f_equal. exact (IH Hrest).
Qed.

Lemma loop_keeps_session (input : list Input) :
  forall p : Process,
    session_ok (self (state p)) ->
    session_ok (self (state (fst (loop input p)))).
Proof.
  unfold loop. generalize false as awaiting.
  induction input as [|i rest IH]; intros awaiting p K; cbn [turns].
  - now destruct (awaiting || running (self (state p))).
  - destruct (awaiting || running (self (state p))); [|exact K].
    destruct i as [| |e|e|cmd_data|]; try (apply IH; exact K).
    + destruct (exc_is_Exception e); [apply IH|]; exact K.
    + rewrite await_spec.
      pose proof (handle_command_keeps_session cmd_data (state p) K) as K'.
      destruct (outcome (handle_command cmd_data (state p))) as [v|e];
        [|destruct (exc_is_Exception e)]; try apply IH; exact K'.
Qed.

Lemma handle_shutdown (d : list (string * value)) (s : State) :
  names d "shutdown" = true ->
  handle_command (PyDict d) s = cmd_shutdown (request_id d) s.
Proof.
  intros N. rewrite handle_command_dict. unfold names in N.
  apply eq_str_true in N. rewrite N.
  change (dispatch (PyStr "shutdown") (request_id d) (PyDict d))
    with (cmd_shutdown (request_id d)).
  destruct (cmd_shutdown_outcome (request_id d) s) as (O & _).
  exact (try_except_Exception_returns _ _ _ _ O).
Qed.

End LoopFacts.

(* ================================================================== *)
(** * The properties of the bridge *)

Section Properties.

Context `{RT : Runtime}.

Lemma run_stdout (input : list Input) (w : W) :
  stdout (trace (fst (run input w))) =
  stdout (trace (fst (loop input
    (print ready (spawn w))))).
Proof.
  unfold run. destruct (loop input _) as [p unread]. cbn [fst].
  destruct (uncaught (trace p)); [reflexivity|].
  destruct (connected (self (state p))); [|reflexivity].
  rewrite await_spec. cbn [fst snd trace].
  now rewrite stdout_app, stdout_calls, app_nil_r.
Qed.

Lemma run_uncaught (input : list Input) (w : W) :
  uncaught (trace (fst (run input w))) =
  uncaught (trace (fst (loop input (print ready (spawn w))))).
Proof.
  unfold run. destruct (loop input _) as [p unread]. cbn [fst].
  destruct (uncaught (trace p)) eqn:U; [exact U|].
  destruct (connected (self (state p))); [|exact U].
  rewrite await_spec. cbn [snd trace fst].
  now rewrite uncaught_app, U, uncaught_calls.
Qed.

(** C1, as the code has it. Take an input whose [N] lines each carry a
    request object and are each read whole (a line is read whole when it
    is shorter than the 64 KiB limit of the stream reader), with any
    number of read timeouts and blank lines between them, during which no
    termination signal arrives, and a run in which nothing that is not an
    [Exception] is raised out of a handler. The process prints its ready
    line and then one response per request read, in the order read, each
    under the id of the request it answers (["unknown"] when the request
    has none). The requests read are those up to and including the first
    [shutdown]: all [N] of them when no request before the last is a
    shutdown, and then exactly [N] responses are printed. *)
Theorem responses_follow_requests (input : list Input) (w : W) :
  only_requests input = true ->
  uncaught (trace (fst (run input w))) = None ->
  exists responses,
    stdout (trace (fst (run input w))) = ready :: responses /\
    map (fun r => field r "id") responses = map request_id (served (requests_of input)) /\
    (no_early_shutdown (requests_of input) = true ->
     served (requests_of input) = requests_of input /\
     length responses = length (requests_of input)).
Proof.
  intros Q U. rewrite run_uncaught in U. rewrite run_stdout.
  destruct (loop_serves input Q (print ready (spawn w)) eq_refl U)
    as (responses & S & Ids).
  exists responses. split; [exact S | split; [exact Ids|]].
  intros H. pose proof (served_all (requests_of input) H) as E. split; [exact E|].
  rewrite E in Ids.
  rewrite <- (length_map (fun r => field r "id") responses), Ids.
  apply length_map.
Qed.


(** C6. [disconnect] always answers success with [{"connected": false}],
    whatever the session was and whatever closing the transport did; it
    leaves the session down with both handles cleared; and a second
    [disconnect] answers the same, changes nothing and calls nothing. *)
Theorem disconnect_is_idempotent (cmd_id : value) (s : State) :
  let once := cmd_disconnect cmd_id s in
  let twice := cmd_disconnect cmd_id (after once) in
  outcome once = Return (success cmd_id (PyDict [("connected", PyBool false)])) /\
  cleared (self (after once)) /\
  running (self (after once)) = running (self s) /\
  twice = mkResult (outcome once) (after once) [].
Proof.
  cbv zeta. destruct (cmd_disconnect_outcome cmd_id s) as [O A].
  rewrite O, A. split; [reflexivity | split; [apply dropped_cleared | split; [reflexivity|]]].
  rewrite (cmd_disconnect_run cmd_id (after (cmd_disconnect cmd_id s))), A.
  cbn [meshcore dropped]. rewrite <- A.
  destruct (after (cmd_disconnect cmd_id s)) as [b w']. cbn in *. subst b. reflexivity.
Qed.

(** C7. When the running loop reads a [shutdown] request it leaves at
    once with every later line unread, and what it did before leaving is:
    the [disconnect] call of the client if the session was up (no call
    otherwise), then the success response [{"shutdown": true}] under the
    id of the request. *)
Theorem shutdown_is_answered_last
    (d : list (string * value)) (rest : list Input) (p : Process) :
  running (self (state p)) = true ->
  names d "shutdown" = true ->
  exists log p',
    loop (request_line d :: rest) p = (p', rest) /\
    trace p' = (trace p ++ map Called log ++
                [Stdout (success (request_id d) (PyDict [("shutdown", PyBool true)]))])%list /\
    running (self (state p')) = false /\
    connected (self (state p')) = false /\
    (connected (self (state p)) = false -> log = []) /\
    (forall mc, connected (self (state p)) = true -> meshcore (self (state p)) = Some mc ->
                exists o, log = [ {| call := Invoke mc disconnect; result := o |} ]).
Proof.
  intros R N. unfold request_line.
  rewrite (loop_request _ _ _ R), await_spec, (handle_shutdown d (state p) N).
  destruct (cmd_shutdown_outcome (request_id d) (state p)) as (O & R' & C' & _).
  rewrite O. rewrite loop_stopped by exact R'.
  eexists. eexists. split; [reflexivity|].
  split; [unfold print; cbn [trace]; now rewrite <- app_assoc|].
  split; [exact R' | split; [exact C'|]].
  rewrite cmd_shutdown_run. split.
  - intros C. rewrite C. reflexivity.
  - intros mc C Hmc. rewrite C, cmd_disconnect_run. cbn [self meshcore with_running world].
    rewrite Hmc. destruct (answer lib (Invoke mc disconnect) (world (state p))) as [o w'].
    exists o. reflexivity.
Qed.

(** C10. A connected bridge holds both its handles: the invariant holds
    when the bridge is created, every command keeps it whatever the
    request and whatever the device does, so does the loop, and so it
    holds when [run] ends; and under it a connected bridge always finds
    its client behind [self.meshcore]. *)
Theorem session_invariant :
  session_ok __init__ /\
  (forall cmd_data s,
      session_ok (self s) -> session_ok (self (after (handle_command cmd_data s)))) /\
  (forall input p,
      session_ok (self (state p)) -> session_ok (self (state (fst (loop input p))))) /\
  (forall input w, session_ok (self (state (fst (run input w))))) /\
  (forall attr s,
      session_ok (self s) -> connected (self s) = true ->
      exists mc, meshcore (self s) = Some mc /\
                 deref_meshcore attr s = mkResult (Return mc) s []).
Proof.
  split; [intros C; discriminate|].
  split; [exact handle_command_keeps_session|].
  split; [intros input p; apply loop_keeps_session|].
  split.
  - intros input w. unfold run.
    pose proof (loop_keeps_session input
                  (print ready (spawn w))) as K.
    destruct (loop input _) as [p unread]. cbn [fst] in *.
    specialize (K (fun C => match Bool.diff_false_true C with end)).
    destruct (uncaught (trace p)); [exact K|].
    destruct (connected (self (state p))) eqn:C.
    + rewrite await_spec. cbn [fst snd state].
      destruct (cmd_disconnect_outcome (PyStr "shutdown") (state p)) as [_ A].
      rewrite A. apply cleared_session_ok, dropped_cleared.
    + intros C'. cbn [fst] in C'. congruence.
  - intros attr s K C. destruct (K C) as [Hm _].
    destruct (meshcore (self s)) as [mc|] eqn:E; [|discriminate].
    exists mc. split; [reflexivity|].
    unfold deref_meshcore, bind, get_self, ret. rewrite E. reflexivity.
Qed.

(** C3, as the code has it. Each of the eight session commands
    (get_self_info, get_contacts, send_message, send_advert, login,
    get_status, set_name, set_radio), dispatched while the session is
    down, is answered [success: false] with the error "Not connected";
    the bridge and the world are exactly as before and the meshcore
    package is not called. *)
Theorem session_commands_are_refused
    (d : list (string * value)) (command : string) (s : State) :
  In command session_commands ->
  names d command = true ->
  connected (self s) = false ->
  handle_command (PyDict d) s =
  mkResult (Return (failure (request_id d) NOT_CONNECTED)) s [].
Proof.
  intros Hin N C.
  assert (G : not_ready (self s) = true) by (unfold not_ready; rewrite C; reflexivity).
  rewrite handle_command_dict. unfold names in N. apply eq_str_true in N. rewrite N.
  unfold try_except_Exception.
  cbn [session_commands In] in Hin.
  repeat destruct Hin as [<-|Hin]; try contradiction.
  - change (dispatch (PyStr "get_self_info") (request_id d) (PyDict d))
      with (cmd_get_self_info (request_id d)).
    now rewrite cmd_get_self_info_refused.
  - change (dispatch (PyStr "get_contacts") (request_id d) (PyDict d))
      with (cmd_get_contacts (request_id d)).
    now rewrite cmd_get_contacts_refused.
  - change (dispatch (PyStr "send_message") (request_id d) (PyDict d))
      with (cmd_send_message (request_id d) (PyDict d)).
    now rewrite cmd_send_message_refused.
  - change (dispatch (PyStr "send_advert") (request_id d) (PyDict d))
      with (cmd_send_advert (request_id d)).
    now rewrite cmd_send_advert_refused.
  - change (dispatch (PyStr "login") (request_id d) (PyDict d))
      with (cmd_login (request_id d) (PyDict d)).
    now rewrite cmd_login_refused.
  - change (dispatch (PyStr "get_status") (request_id d) (PyDict d))
      with (cmd_get_status (request_id d) (PyDict d)).
    now rewrite cmd_get_status_refused.
  - change (dispatch (PyStr "set_name") (request_id d) (PyDict d))
      with (cmd_set_name (request_id d) (PyDict d)).
    now rewrite cmd_set_name_refused.
  - change (dispatch (PyStr "set_radio") (request_id d) (PyDict d))
      with (cmd_set_radio (request_id d) (PyDict d)).
    now rewrite cmd_set_radio_refused.
Qed.

(** C5. Whenever the handshake of a [connect] answers nothing
    ([MeshCore.connect()] returned [None]), the command answers
    [success: false] with the no-response error, and leaves the session
    down with both handles cleared. That answer is not the one of a
    transport fault: when the handshake raises instead, the exception
    leaves [cmd_connect] and [handle_command] answers with the text of the
    exception and a traceback, which the no-response answer does not
    carry. *)
Theorem handshake_without_response
    (cmd_id cmd_data : value) (s : State) (mc : Client) :
  In {| call := Invoke mc connect; result := Return PyNone |}
     (calls (cmd_connect cmd_id cmd_data s)) ->
  outcome (cmd_connect cmd_id cmd_data s) = Return (failure cmd_id NO_DEVICE_RESPONSE) /\
  cleared (self (after (cmd_connect cmd_id cmd_data s))) /\
  has_key (failure cmd_id NO_DEVICE_RESPONSE) "traceback" = false /\
  (forall s' mc' e,
      In {| call := Invoke mc' connect; result := Raise e |}
         (calls (cmd_connect cmd_id cmd_data s')) ->
      outcome (cmd_connect cmd_id cmd_data s') = Raise e /\
      has_key (internal_error cmd_id e) "traceback" = true /\
      internal_error cmd_id e <> failure cmd_id NO_DEVICE_RESPONSE).
Proof.
  intros H. destruct (cmd_connect_no_response cmd_id cmd_data s mc H) as [O K].
  split; [exact O | split; [exact K | split; [reflexivity|]]].
  intros s' mc' e H'. split; [|split; [reflexivity | discriminate]].
  revert H'. unfold cmd_connect, cmd_connect_handshake, cmd_disconnect.
  execute; cbn [In]; intros H';
    repeat match goal with
           | H : _ \/ _ |- _ => destruct H
           | H : False |- _ => destruct H
           | H : mkExchange _ _ = mkExchange _ _ |- _ => inversion H; clear H; subst
           end;
    try discriminate; reflexivity.
Qed.

(** C8, as the code has it. While the session is up, [get_status]
    makes exactly one call, [req_status_sync(public_key, timeout=10)]:
    the wait bound is the constant 10 whatever the request carries. If
    the call returns nothing (or anything falsy) the answer is
    [success: false] with "No status received"; if it returns a status
    record the answer is [success: true] with the seven fields bat_mv,
    up_secs, tx_power, radio_freq, radio_bw, radio_sf and radio_cr read
    off that record. *)
Theorem status_request_waits_ten
    (cmd_id cmd_data : value) (s : State) (mc : Client) (public_key : value) :
  connected (self s) = true ->
  meshcore (self s) = Some mc ->
  get cmd_data "public_key" (PyStr "") = Return public_key ->
  let r := cmd_get_status cmd_id cmd_data s in
  let request := Invoke mc (commands_req_status_sync public_key (PyInt 10)) in
  let reply := fst (answer lib request (world s)) in
  calls r = [ {| call := request; result := reply |} ] /\
  (forall status, reply = Return status -> truthy status = false ->
     outcome r = Return (failure cmd_id NO_STATUS_RECEIVED)) /\
  (forall st, reply = Return (PyDict st) -> truthy (PyDict st) = true ->
     outcome r =
     Return (success cmd_id
               (PyDict [("bat_mv", field (PyDict st) "bat_mv");
                        ("up_secs", field (PyDict st) "up_secs");
                        ("tx_power", field (PyDict st) "tx_power");
                        ("radio_freq", field (PyDict st) "radio_freq");
                        ("radio_bw", field (PyDict st) "radio_bw");
                        ("radio_sf", field (PyDict st) "radio_sf");
                        ("radio_cr", field (PyDict st) "radio_cr")]))).
Proof.
  intros C Hm G. cbv zeta. unfold cmd_get_status.
  unfold_monad. repeat (progress (rewrite ?C, ?Hm, ?G; reduce)).
  destruct (answer lib _ (world s)) as [[status|e] w'] eqn:A; reduce.
  - destruct (truthy status) eqn:T.
    + split; [|split].
      * destruct status; cbn [get]; reflexivity.
      * intros ? E. injection E as <-. congruence.
      * intros st E _. injection E as ->. reflexivity.
    + split; [reflexivity | split].
      * reflexivity.
      * intros st E T'. injection E as ->. congruence.
  - split; [reflexivity | split]; intros ? E; discriminate.
Qed.

(** C9, as the code has it. While the session is up, [send_message]
    makes exactly one call: [send_msg(to, text)] when the request carries
    a destination that is truthy (a non-empty key), and
    [send_chan_msg(0, text)], the broadcast channel 0, when the
    destination is missing, [None] or empty. Whenever that call returns,
    the answer is [success: true] with [{"sent": true}]. *)
Theorem message_is_routed
    (cmd_id cmd_data : value) (s : State) (mc : Client) (text to_key : value) :
  connected (self s) = true ->
  meshcore (self s) = Some mc ->
  get cmd_data "text" (PyStr "") = Return text ->
  get cmd_data "to" PyNone = Return to_key ->
  let r := cmd_send_message cmd_id cmd_data s in
  let send := Invoke mc (if truthy to_key
                         then commands_send_msg to_key text
                         else commands_send_chan_msg (PyInt 0) text) in
  calls r = [ {| call := send; result := fst (answer lib send (world s)) |} ] /\
  (forall v, fst (answer lib send (world s)) = Return v ->
     outcome r = Return (success cmd_id (PyDict [("sent", PyBool true)]))).
Proof.
  intros C Hm Gt Gk. cbv zeta. unfold cmd_send_message.
  unfold_monad. repeat (progress (rewrite ?C, ?Hm, ?Gt, ?Gk; reduce)).
  destruct (truthy to_key); repeat (progress (rewrite ?Hm; reduce));
    destruct (answer lib _ (world s)) as [[v|e] w']; reduce;
    (split; [reflexivity | intros ? E; first [reflexivity | discriminate]]).
Qed.

End Properties.


(* ================================================================== *)
(** * The properties at concrete inputs *)

(** [responses_follow_requests] on a ping followed by a shutdown, with
    read timeouts and a blank line around them. *)
Lemma responses_follow_requests_witness :
  let input := [ReadTimeout; request_line (request "1" "ping" []); BlankLine;
                ReadTimeout; request_line (request "2" "shutdown" [])] in
  only_requests input = true /\
  uncaught (trace (fst (@run silent input tt))) = None /\
  requests_of input = [request "1" "ping" []; request "2" "shutdown" []] /\
  no_early_shutdown (requests_of input) = true /\
  exists responses,
    stdout (trace (fst (@run silent input tt))) = @ready silent :: responses /\
    map (fun r => field r "id") responses = [PyStr "1"; PyStr "2"] /\
    length responses = 2.
Proof.
  cbv zeta.
  split; [reflexivity | split; [reflexivity | split; [reflexivity | split; [reflexivity|]]]].
  destruct (@responses_follow_requests silent
              [ReadTimeout; request_line (request "1" "ping" []); BlankLine;
               ReadTimeout; request_line (request "2" "shutdown" [])] tt
              eq_refl eq_refl)
    as (responses & S & Ids & All).
  exists responses. split; [exact S | split; [exact Ids|]].
  exact (proj2 (All eq_refl)).
Defined.

(** C1 as stated fails. A shutdown followed by a ping: two lines that
    each carry a request are fed in, one response comes out, and the
    second line is never read. A send that is cancelled while the device
    is awaited: [asyncio.CancelledError] is no [Exception], neither
    [except Exception] catches it, the request gets no response and no
    later line is read. A termination signal while the loop waits for a
    line: the line that wait yields is answered and the next is not read.
    A request on a line longer than the reader's limit: it is answered
    under the id ["unknown"], not under its own. *)
Lemma requests_after_shutdown_are_not_answered :
  let requests := [request "1" "shutdown" []; request "2" "ping" []] in
  let done := @run silent (map request_line requests) tt in
  let sends := [request "1" "connect" []; request "2" "send_message" [];
                request "3" "ping" []] in
  let cancelled := @run cancelling (map request_line sends) tt in
  let pings := [request "1" "ping" []; request "2" "ping" []] in
  let signalled := @run silent (Signal :: map request_line pings) tt in
  let overlong := @run silent [ReadFault LINE_TOO_LONG] tt in
  (stdout (trace (fst done))
   = [@ready silent; success (PyStr "1") (PyDict [("shutdown", PyBool true)])] /\
   snd done = [request_line (request "2" "ping" [])] /\
   length (tl (stdout (trace (fst done)))) <> length requests) /\
  (map (fun r => field r "id") (tl (stdout (trace (fst cancelled)))) = [PyStr "1"] /\
   uncaught (trace (fst cancelled)) = Some CancelledError /\
   snd cancelled = [request_line (request "3" "ping" [])]) /\
  (stdout (trace (fst signalled)) = [@ready silent; success (PyStr "1") (PyStr "pong")] /\
   snd signalled = [request_line (request "2" "ping" [])]) /\
  stdout (trace (fst overlong))
  = [@ready silent; failure (PyStr "unknown") (str LINE_TOO_LONG)].
Proof.
  cbv zeta. split; [|split; [|split]].
  - split; [reflexivity | split; [reflexivity|]]. vm_compute. discriminate.
  - split; [vm_compute; reflexivity | split; vm_compute; reflexivity].
  - split; vm_compute; reflexivity.
  - vm_compute. reflexivity.
Qed.


(** [session_commands_are_refused] on [get_contacts] in a fresh bridge. *)
Lemma session_commands_are_refused_witness :
  let s := @mkState silent __init__ tt in
  In "get_contacts" session_commands /\
  names (request "2" "get_contacts" []) "get_contacts" = true /\
  connected (self s) = false /\
  @handle_command silent (PyDict (request "2" "get_contacts" [])) s
  = mkResult (Return (failure (PyStr "2") "Not connected")) s [].
Proof.
  cbv zeta.
  assert (Hin : In "get_contacts" session_commands) by (right; left; reflexivity).
  split; [exact Hin | split; [reflexivity | split; [reflexivity|]]].
  exact (@session_commands_are_refused silent (request "2" "get_contacts" [])
           "get_contacts" (@mkState silent __init__ tt) Hin eq_refl eq_refl).
Defined.

(** C3 as stated fails: in a fresh bridge, with no session, [disconnect],
    [ping] and [shutdown] succeed, and an unknown command is answered with
    the unknown-command error, not with "Not connected". *)
Lemma other_commands_answer_without_session :
  let s := @mkState silent __init__ tt in
  outcome (@handle_command silent (PyDict (request "1" "disconnect" [])) s)
  = Return (success (PyStr "1") (PyDict [("connected", PyBool false)])) /\
  outcome (@handle_command silent (PyDict (request "2" "ping" [])) s)
  = Return (success (PyStr "2") (PyStr "pong")) /\
  outcome (@handle_command silent (PyDict (request "3" "shutdown" [])) s)
  = Return (success (PyStr "3") (PyDict [("shutdown", PyBool true)])) /\
  outcome (@handle_command silent (PyDict (request "4" "reboot" [])) s)
  = Return (failure (PyStr "4") "Unknown command: reboot").
Proof. cbv zeta. repeat split. Qed.


(** [handshake_without_response] on a device that never answers. *)
Lemma handshake_without_response_witness :
  let s := @mkState silent __init__ tt in
  let r := @cmd_connect silent (PyStr "1") (PyDict (request "1" "connect" [])) s in
  In {| call := Invoke (MeshCore (Some default_port)) connect; result := Return PyNone |}
     (calls r) /\
  outcome r = Return (failure (PyStr "1") NO_DEVICE_RESPONSE) /\
  cleared (self (after r)).
Proof.
  cbv zeta.
  assert (Hin : In {| call := Invoke (MeshCore (Some default_port)) connect;
                      result := Return PyNone |}
                   (calls (@cmd_connect silent (PyStr "1")
                             (PyDict (request "1" "connect" []))
                             (@mkState silent __init__ tt))))
    by (right; right; left; reflexivity).
  split; [exact Hin|].
  destruct (@handshake_without_response silent (PyStr "1")
              (PyDict (request "1" "connect" [])) (@mkState silent __init__ tt)
              (MeshCore (Some default_port)) Hin) as (O & K & _).
  split; [exact O | exact K].
Defined.

(** [shutdown_is_answered_last] on a session that is up, with a ping
    waiting behind the shutdown. *)
Lemma shutdown_is_answered_last_witness :
  let p := {| state := @mkState companion up tt; trace := [] |} in
  let d := request "11" "shutdown" [] in
  let rest := [request_line (request "12" "ping" [])] in
  running (self (state p)) = true /\
  names d "shutdown" = true /\
  exists log p',
    @loop companion (request_line d :: rest) p = (p', rest) /\
    trace p' = (trace p ++ map Called log ++
                [Stdout (success (PyStr "11") (PyDict [("shutdown", PyBool true)]))])%list /\
    running (self (state p')) = false /\
    connected (self (state p')) = false /\
    log = [ {| call := Invoke (MeshCore (Some default_port)) disconnect;
               result := Return PyNone |} ].
Proof.
  cbv zeta. split; [reflexivity | split; [reflexivity|]].
  destruct (@shutdown_is_answered_last companion (request "11" "shutdown" [])
              [request_line (request "12" "ping" [])]
              {| state := @mkState companion up tt; trace := [] |} eq_refl eq_refl)
    as (log & p' & L & T & R & C & _ & _).
  exists log, p'.
  split; [exact L | split; [exact T | split; [exact R | split; [exact C|]]]].
  injection L as <-. cbn [trace app] in T.
  apply (f_equal called) in T. vm_compute in T.
  clear - T. revert T.
  assert (E : forall l, called (map Called l ++
                [Stdout (success (PyStr "11") (PyDict [("shutdown", PyBool true)]))]) = l).
  { induction l as [|x l IH]; [reflexivity | cbn; now rewrite IH]. }
  rewrite E. intros <-. reflexivity.
Defined.

(** [status_request_waits_ten] on a node that never replies. *)
Lemma status_request_waits_ten_witness :
  let s := @mkState companion up tt in
  let cmd_data := PyDict (request "8" "get_status" [("public_key", PyStr "a1b2c3")]) in
  let r := @cmd_get_status companion (PyStr "8") cmd_data s in
  connected (self s) = true /\
  meshcore (self s) = Some (MeshCore (Some default_port)) /\
  get cmd_data "public_key" (PyStr "") = Return (PyStr "a1b2c3") /\
  calls r = [ {| call := Invoke (MeshCore (Some default_port))
                           (commands_req_status_sync (PyStr "a1b2c3") (PyInt 10));
                 result := Return PyNone |} ] /\
  outcome r = Return (failure (PyStr "8") NO_STATUS_RECEIVED).
Proof.
  cbv zeta. split; [reflexivity | split; [reflexivity | split; [reflexivity|]]].
  destruct (@status_request_waits_ten companion (PyStr "8")
              (PyDict (request "8" "get_status" [("public_key", PyStr "a1b2c3")]))
              (@mkState companion up tt) (MeshCore (Some default_port)) (PyStr "a1b2c3")
              eq_refl eq_refl eq_refl) as (Log & Nothing & _).
  split; [exact Log | exact (Nothing PyNone eq_refl eq_refl)].
Defined.

(** C8 as stated fails: a caller that connects and then asks for a
    status with a timeout of 5. The request goes to the node with a
    timeout of 10; no call carries the 5 of the caller. (The last call is
    the clean disconnect at end of input.) *)
Lemma status_timeout_is_not_the_callers :
  let mc := MeshCore (Some default_port) in
  let ask := request "8" "get_status"
               [("public_key", PyStr "a1b2c3"); ("timeout", PyInt 5)] in
  let done := @run companion [request_line (request "1" "connect" []); request_line ask] tt in
  field (PyDict ask) "timeout" = PyInt 5 /\
  called (trace (fst done))
  = [ {| call := NewConnection default_port; result := Return PyNone |};
      {| call := NewMeshCore mc; result := Return PyNone |};
      {| call := Invoke mc connect; result := Return node_identity |};
      {| call := Invoke mc (commands_req_status_sync (PyStr "a1b2c3") (PyInt 10));
         result := Return PyNone |};
      {| call := Invoke mc disconnect; result := Return PyNone |} ] /\
  commands_req_status_sync (PyStr "a1b2c3") (PyInt 10)
  <> commands_req_status_sync (PyStr "a1b2c3") (PyInt 5).
Proof. cbv zeta. split; [reflexivity | split; [reflexivity | discriminate]]. Qed.

(** [message_is_routed] on a direct message. *)
Lemma message_is_routed_witness :
  let s := @mkState companion up tt in
  let cmd_data := PyDict (request "5" "send_message"
                            [("text", PyStr "hello"); ("to", PyStr "a1b2c3")]) in
  let r := @cmd_send_message companion (PyStr "5") cmd_data s in
  connected (self s) = true /\
  meshcore (self s) = Some (MeshCore (Some default_port)) /\
  get cmd_data "text" (PyStr "") = Return (PyStr "hello") /\
  get cmd_data "to" PyNone = Return (PyStr "a1b2c3") /\
  calls r = [ {| call := Invoke (MeshCore (Some default_port))
                           (commands_send_msg (PyStr "a1b2c3") (PyStr "hello"));
                 result := Return PyNone |} ] /\
  outcome r = Return (success (PyStr "5") (PyDict [("sent", PyBool true)])).
Proof.
  cbv zeta.
  split; [reflexivity | split; [reflexivity | split; [reflexivity | split; [reflexivity|]]]].
  destruct (@message_is_routed companion (PyStr "5")
              (PyDict (request "5" "send_message"
                         [("text", PyStr "hello"); ("to", PyStr "a1b2c3")]))
              (@mkState companion up tt) (MeshCore (Some default_port))
              (PyStr "hello") (PyStr "a1b2c3") eq_refl eq_refl eq_refl eq_refl)
    as (Log & Sent).
  split; [exact Log | exact (Sent PyNone eq_refl)].
Defined.

(** C9 as stated fails, twice. A request that gives the destination key
    [""] is not sent to that key but to channel 0; and a direct message
    whose send raises is answered [success: false], not [{"sent": true}]. *)
Lemma message_is_not_always_direct_nor_acknowledged :
  let mc := MeshCore (Some default_port) in
  let hello := request "1" "connect" [] in
  let empty_key := request "5" "send_message" [("text", PyStr "hi"); ("to", PyStr "")] in
  let direct := request "6" "send_message" [("text", PyStr "hi"); ("to", PyStr "a1b2c3")] in
  has_key (PyDict empty_key) "to" = true /\
  called (trace (fst (@run companion [request_line hello; request_line empty_key] tt)))
  = [ {| call := NewConnection default_port; result := Return PyNone |};
      {| call := NewMeshCore mc; result := Return PyNone |};
      {| call := Invoke mc connect; result := Return node_identity |};
      {| call := Invoke mc (commands_send_chan_msg (PyInt 0) (PyStr "hi"));
         result := Return PyNone |};
      {| call := Invoke mc disconnect; result := Return PyNone |} ] /\
  nth 2 (stdout (trace (fst (@run failing [request_line hello; request_line direct] tt))))
        PyNone
  = @internal_error failing (PyStr "6") (OSError "write failed") /\
  field (@internal_error failing (PyStr "6") (OSError "write failed")) "success"
  = PyBool false.
Proof. cbv zeta. repeat split. Qed.

(** [session_invariant] on a session that is up. *)
Lemma session_invariant_witness :
  let s := @mkState companion up tt in
  session_ok (self s) /\
  connected (self s) = true /\
  session_ok (self (after (@handle_command companion
                             (PyDict (request "9" "set_name" [("name", PyStr "n")])) s))) /\
  exists mc, meshcore (self s) = Some mc /\
             @deref_meshcore companion "commands" s = mkResult (Return mc) s [].
Proof.
  cbv zeta.
  assert (K : session_ok up) by (intros _; split; reflexivity).
  destruct (@session_invariant companion) as (_ & H & _ & _ & D).
  split; [exact K | split; [reflexivity | split]].
  - exact (H _ (@mkState companion up tt) K).
  - exact (D "commands" (@mkState companion up tt) K eq_refl).
Defined.

(* ================================================================== *)
(** * Further properties: the shape of the responses *)

Section ResponseShape.

Context `{RT : Runtime}.

Lemma cmd_disconnect_shaped cmd_id : shaped (cmd_disconnect cmd_id).
Proof.
  intros s. destruct (cmd_disconnect_outcome cmd_id s) as [O _]. rewrite O.
  shaped_done.
Qed.

Lemma cmd_shutdown_shaped cmd_id : shaped (cmd_shutdown cmd_id).
Proof.
  intros s. destruct (cmd_shutdown_outcome cmd_id s) as [O _]. rewrite O.
  shaped_done.
Qed.

Lemma cmd_connect_shaped cmd_id cmd_data : shaped (cmd_connect cmd_id cmd_data).
Proof.
  intros s. unfold cmd_connect, cmd_connect_handshake, cmd_disconnect.
  execute; shaped_done.
Qed.

Lemma cmd_get_self_info_shaped cmd_id : shaped (cmd_get_self_info cmd_id).
Proof. intros s. unfold cmd_get_self_info. execute; shaped_done. Qed.

Lemma cmd_get_contacts_shaped cmd_id : shaped (cmd_get_contacts cmd_id).
Proof. intros s. unfold cmd_get_contacts. execute; shaped_done. Qed.

Lemma cmd_send_message_shaped cmd_id cmd_data : shaped (cmd_send_message cmd_id cmd_data).
Proof. intros s. unfold cmd_send_message. execute; shaped_done. Qed.

Lemma cmd_send_advert_shaped cmd_id : shaped (cmd_send_advert cmd_id).
Proof. intros s. unfold cmd_send_advert. execute; shaped_done. Qed.

Lemma cmd_login_shaped cmd_id cmd_data : shaped (cmd_login cmd_id cmd_data).
Proof. intros s. unfold cmd_login. execute; shaped_done. Qed.

Lemma cmd_get_status_shaped cmd_id cmd_data : shaped (cmd_get_status cmd_id cmd_data).
Proof. intros s. unfold cmd_get_status. execute; shaped_done. Qed.

Lemma cmd_set_name_shaped cmd_id cmd_data : shaped (cmd_set_name cmd_id cmd_data).
Proof. intros s. unfold cmd_set_name. execute; shaped_done. Qed.

Lemma cmd_set_radio_shaped cmd_id cmd_data : shaped (cmd_set_radio cmd_id cmd_data).
Proof. intros s. unfold cmd_set_radio. execute; shaped_done. Qed.

Lemma dispatch_shaped cmd cmd_id cmd_data : shaped (dispatch cmd cmd_id cmd_data).
Proof.
  unfold dispatch.
  repeat match goal with
         | |- shaped (if ?b then _ else _) => destruct b
         end;
    first [ apply cmd_connect_shaped | apply cmd_disconnect_shaped
          | apply cmd_get_self_info_shaped | apply cmd_get_contacts_shaped
          | apply cmd_send_message_shaped | apply cmd_send_advert_shaped
          | apply cmd_login_shaped | apply cmd_get_status_shaped
          | apply cmd_set_name_shaped | apply cmd_set_radio_shaped
          | apply cmd_shutdown_shaped
          | intros s; unfold ret; cbn [outcome]; shaped_done ].
Qed.

(** Whatever [handle_command] returns is a well-shaped response. *)
Lemma handle_command_shaped cmd_data : shaped (handle_command cmd_data).
Proof.
  intros s v. destruct cmd_data;
    try (rewrite handle_command_not_dict by (intros d; discriminate); discriminate).
  rewrite handle_command_dict.
  destruct (try_except_internal (dispatch (request_cmd entries) (request_id entries)
                                   (PyDict entries)) (request_id entries) s) as (_ & _ & O).
  rewrite O.
  destruct (outcome (dispatch _ _ _ s)) as [r|e] eqn:E.
  - intros H. injection H as <-. exact (dispatch_shaped _ _ _ s r E).
  - destruct (exc_is_Exception e); intros H; [|discriminate].
    injection H as <-. reflexivity.
Qed.

Lemma uncaught_await {A : Type} (m : M A) (p : Process) :
  uncaught (trace (snd (await m p))) = uncaught (trace p).
Proof.
  rewrite await_spec. cbn [snd trace]. rewrite uncaught_app, uncaught_calls.
  now destruct (uncaught (trace p)).
Qed.

Lemma stdout_await {A : Type} (m : M A) (p : Process) :
  stdout (trace (snd (await m p))) = stdout (trace p).
Proof.
  rewrite await_spec. cbn [snd trace]. now rewrite stdout_app, stdout_calls, app_nil_r.
Qed.

Lemma uncaught_died (e : Exception) (p : Process) :
  uncaught (trace p) = None -> uncaught (trace (die e p)) = Some e.
Proof. intros U. unfold die. cbn [trace]. now rewrite uncaught_app, U. Qed.

Lemma stdout_die (e : Exception) (p : Process) :
  stdout (trace (die e p)) = stdout (trace p).
Proof. unfold die. cbn [trace]. rewrite stdout_app. cbn. now rewrite app_nil_r. Qed.

(** What the loop does with its input: the lines it read, the lines it
    printed for them, and the line it was at when something that is not
    an [Exception] was raised. *)
Lemma turns_account (input : list Input) :
  forall (awaiting : bool) (p : Process),
    uncaught (trace p) = None ->
    exists read responses,
      input = (read ++ snd (turns awaiting input p))%list /\
      stdout (trace (fst (turns awaiting input p))) = (stdout (trace p) ++ responses)%list /\
      forallb is_response responses = true /\
      match uncaught (trace (fst (turns awaiting input p))) with
      | None => length responses = length (filter wants_response read)
      | Some e =>
          exc_is_Exception e = false /\
          exists before last,
            read = (before ++ [last])%list /\
            wants_response last = true /\
            length responses = length (filter wants_response before)
      end.
Proof.
  induction input as [|i rest IH]; intros awaiting p U.
  - exists [], []. cbn [turns]. destruct (awaiting || running (self (state p)));
      cbn [fst snd app]; rewrite U, app_nil_r; auto.
  - cbn [turns]. destruct (awaiting || running (self (state p))).
    2:{ exists [], []. cbn [fst snd app]. rewrite U, app_nil_r. auto. }
    assert (silent_turn : forall a p1,
               uncaught (trace p1) = None -> stdout (trace p1) = stdout (trace p) ->
               wants_response i = false ->
               exists read responses,
                 i :: rest = (read ++ snd (turns a rest p1))%list /\
                 stdout (trace (fst (turns a rest p1)))
                 = (stdout (trace p) ++ responses)%list /\
                 forallb is_response responses = true /\
                 match uncaught (trace (fst (turns a rest p1))) with
                 | None => length responses = length (filter wants_response read)
                 | Some e =>
                     exc_is_Exception e = false /\
                     exists before last,
                       read = (before ++ [last])%list /\
                       wants_response last = true /\
                       length responses = length (filter wants_response before)
                 end).
    { intros a p1 U1 T Wi.
      destruct (IH a p1 U1) as (read & responses & I & O & F & N).
      exists (i :: read), responses.
      split; [cbn [app]; now rewrite <- I|].
      split; [now rewrite O, T|]. split; [exact F|].
      destruct (uncaught (trace (fst (turns a rest p1)))) as [e|].
      - destruct N as (X & before & last & -> & Wl & N).
        split; [exact X|]. exists (i :: before), last.
        split; [reflexivity | split; [exact Wl|]].
        cbn [filter]. now rewrite Wi.
      - cbn [filter]. now rewrite Wi. }
    assert (answered_turn : forall line p1,
               uncaught (trace p1) = None -> stdout (trace p1) = stdout (trace p) ->
               is_response line = true -> wants_response i = true ->
               exists read responses,
                 i :: rest = (read ++ snd (turns false rest (print line p1)))%list /\
                 stdout (trace (fst (turns false rest (print line p1))))
                 = (stdout (trace p) ++ responses)%list /\
                 forallb is_response responses = true /\
                 match uncaught (trace (fst (turns false rest (print line p1)))) with
                 | None => length responses = length (filter wants_response read)
                 | Some e =>
                     exc_is_Exception e = false /\
                     exists before last,
                       read = (before ++ [last])%list /\
                       wants_response last = true /\
                       length responses = length (filter wants_response before)
                 end).
    { intros line p1 U1 T S Wi.
      assert (U2 : uncaught (trace (print line p1)) = None)
        by (now rewrite uncaught_print).
      destruct (IH false (print line p1) U2) as (read & responses & I & O & F & N).
      exists (i :: read), (line :: responses).
      split; [cbn [app]; now rewrite <- I|].
      split; [rewrite O, stdout_print, T, <- app_assoc; reflexivity|].
      split; [cbn [forallb]; now rewrite S, F|].
      destruct (uncaught (trace (fst (turns false rest (print line p1))))) as [e|].
      - destruct N as (X & before & last & -> & Wl & N).
        split; [exact X|]. exists (i :: before), last.
        split; [reflexivity | split; [exact Wl|]].
        cbn [filter]. rewrite Wi. cbn [length]. now rewrite N.
      - cbn [filter]. rewrite Wi. cbn [length]. now rewrite N. }
    assert (aborted_turn : forall e p1,
               uncaught (trace p1) = None -> stdout (trace p1) = stdout (trace p) ->
               exc_is_Exception e = false -> wants_response i = true ->
               exists read responses,
                 i :: rest = (read ++ snd (die e p1, rest))%list /\
                 stdout (trace (fst (die e p1, rest)))
                 = (stdout (trace p) ++ responses)%list /\
                 forallb is_response responses = true /\
                 match uncaught (trace (fst (die e p1, rest))) with
                 | None => length responses = length (filter wants_response read)
                 | Some e =>
                     exc_is_Exception e = false /\
                     exists before last,
                       read = (before ++ [last])%list /\
                       wants_response last = true /\
                       length responses = length (filter wants_response before)
                 end).
    { intros e p1 U1 T X Wi. exists [i], []. cbn [fst snd].
      rewrite (uncaught_died e p1 U1), stdout_die, T, app_nil_r.
      split; [reflexivity | split; [reflexivity | split; [reflexivity|]]].
      split; [exact X|]. exists [], i. auto. }
    destruct i as [| |e|e|cmd_data|]; [| | | | |apply silent_turn; auto].
    + apply silent_turn; auto.
    + apply silent_turn; auto.
    + apply answered_turn; auto.
    + destruct (exc_is_Exception e) eqn:X.
      * apply answered_turn; auto.
      * apply aborted_turn; auto.
    + pose proof (uncaught_await (handle_command cmd_data) p) as U1.
      pose proof (stdout_await (handle_command cmd_data) p) as T1.
      rewrite U in U1.
      pose proof (handle_command_shaped cmd_data (state p)) as S.
      rewrite await_spec in *. cbn [snd] in U1, T1.
      destruct (outcome (handle_command cmd_data (state p))) as [v|e] eqn:E.
      * apply answered_turn; auto.
      * destruct (exc_is_Exception e) eqn:X.
        -- apply answered_turn; auto.
        -- apply aborted_turn; auto.
Qed.

End ResponseShape.

Section LineProtocol.

Context `{RT : Runtime}.

Lemma run_unread (input : list Input) (w : W) :
  snd (run input w) = snd (loop input (print ready (spawn w))).
Proof.
  unfold run. destruct (loop input _) as [p unread].
  now destruct (uncaught (trace p)).
Qed.


(** X2. Every line printed after the ready line is a response object:
    it has an [id], a boolean [success], and either [data] (on success,
    and then no [error]) or a string [error] (on failure, and then no
    [data]). *)
Theorem every_line_is_a_response (input : list Input) (w : W) :
  exists responses,
    stdout (trace (fst (run input w))) = ready :: responses /\
    forallb is_response responses = true.
Proof.
  destruct (turns_account input false (print ready (spawn w)) eq_refl)
    as (_ & responses & _ & O & F & _).
  exists responses. rewrite run_stdout. split; [exact O | exact F].
Qed.

Lemma handle_command_running (cmd_data : value) (s : State) :
  asks_shutdown (JsonLine cmd_data) = false ->
  running (self (after (handle_command cmd_data s))) = running (self s).
Proof.
  intros N. destruct cmd_data;
    try (rewrite handle_command_not_dict by (intros d; discriminate); reflexivity).
  destruct (handle_command_sound entries s) as (_ & _ & R & _).
  cbn [asks_shutdown] in N. now rewrite N in R.
Qed.

Lemma turns_read_all (input : list Input) :
  forall (awaiting : bool) (p : Process),
    forallb (fun i => negb (asks_shutdown i)) input = true ->
    forallb (fun i => negb (is_signal i)) input = true ->
    running (self (state p)) = true ->
    uncaught (trace (fst (turns awaiting input p))) = None ->
    snd (turns awaiting input p) = [] /\
    running (self (state (fst (turns awaiting input p)))) = true.
Proof.
  induction input as [|i rest IH]; intros awaiting p N G R U;
    cbn [turns] in *; rewrite R, orb_true_r in *.
  - auto.
  - cbn [forallb] in N, G.
    apply andb_true_iff in N as [Ni N]. apply negb_true_iff in Ni.
    apply andb_true_iff in G as [Gi G].
    destruct i as [| |e|e|cmd_data|];
      try discriminate Gi; try (apply IH; assumption).
    + destruct (exc_is_Exception e); [apply IH; assumption|].
      cbn [fst] in U. now apply uncaught_die in U.
    + rewrite await_spec in *.
      pose proof (handle_command_running cmd_data (state p) Ni) as R'. rewrite R in R'.
      destruct (outcome (handle_command cmd_data (state p))) as [v|e];
        [|destruct (exc_is_Exception e)]; try (apply IH; assumption).
      cbn [fst] in U. now apply uncaught_die in U.
Qed.


Lemma handle_command_stays_stopped (cmd_data : value) (s : State) :
  running (self s) = false ->
  running (self (after (handle_command cmd_data s))) = false.
Proof.
  intros R. destruct cmd_data;
    try (rewrite handle_command_not_dict by (intros d; discriminate); exact R).
  destruct (handle_command_sound entries s) as (_ & _ & R' & _).
  rewrite R'. now destruct (names entries "shutdown").
Qed.

(** X23. A termination signal does not interrupt the turn of the loop
    during which it arrives: [shutdown_handler] clears [self.running],
    the read the loop is waiting for still ends as it would (a line that
    wants an answer gets it, from the bridge as the handler left it), and
    then the loop is left with everything after that line unread. At end
    of file the loop is left just the same. *)
Theorem signal_lets_the_turn_finish (rest : list Input) (p : Process) :
  running (self (state p)) = true ->
  let q := shutdown_handler p in
  running (self (state q)) = false /\
  state q = {| self := with_running false (self (state p)); world := world (state p) |} /\
  trace q = trace p /\
  loop [Signal] p = (q, []) /\
  loop (Signal :: ReadTimeout :: rest) p = (q, rest) /\
  loop (Signal :: BlankLine :: rest) p = (q, rest) /\
  (forall e, loop (Signal :: InvalidJson e :: rest) p = (print (invalid_json e) q, rest)) /\
  (forall e, loop (Signal :: ReadFault e :: rest) p
             = (if exc_is_Exception e
                then print (failure (PyStr "unknown") (str e)) q
                else die e q, rest)) /\
  (forall cmd_data,
      loop (Signal :: JsonLine cmd_data :: rest) p
      = match await (handle_command cmd_data) q with
        | (Return response, q') => (print response q', rest)
        | (Raise e, q') =>
            (if exc_is_Exception e
             then print (failure (PyStr "unknown") (str e)) q'
             else die e q', rest)
        end).
Proof.
  intros R q.
  assert (S : forall q' : Process,
             running (self (state q')) = false -> turns false rest q' = (q', rest)).
  { intros q' R'. exact (loop_stopped rest q' R'). }
  assert (Rq : running (self (state q)) = false) by reflexivity.
  split; [exact Rq | split; [reflexivity | split; [reflexivity|]]].
  unfold loop. cbn [turns orb]. rewrite R. cbn [orb].
  split; [reflexivity|].
  split; [exact (S q Rq)|]. split; [exact (S q Rq)|].
  split; [intros e; exact (S (print (invalid_json e) q) Rq)|].
  split.
  - intros e. destruct (exc_is_Exception e); [|reflexivity].
    exact (S (print (failure (PyStr "unknown") (str e)) q) Rq).
  - intros cmd_data. subst q. rewrite !await_spec.
    pose proof (handle_command_stays_stopped cmd_data (state (shutdown_handler p)) Rq) as R'.
    destruct (outcome (handle_command cmd_data (state (shutdown_handler p)))) as [v|e];
      [|destruct (exc_is_Exception e); [|reflexivity]];
      apply S; exact R'.
Qed.


End LineProtocol.

Section Dispatch.

Context `{RT : Runtime}.

(** X5. A session command never changes a field of the bridge, whether
    the session is up or down and whether the device call returns or
    raises: in particular a failing device call does not bring the
    session down, the bridge stays connected. *)
Theorem session_commands_keep_the_bridge
    (d : list (string * value)) (command : string) (s : State) :
  In command session_commands ->
  names d command = true ->
  self (after (handle_command (PyDict d) s)) = self s.
Proof.
  intros Hin N. rewrite handle_command_dict.
  destruct (try_except_internal (dispatch (request_cmd d) (request_id d) (PyDict d))
              (request_id d) s) as (A & _).
  rewrite A. unfold names in N. apply eq_str_true in N. rewrite N.
  cbn [session_commands In] in Hin.
  repeat destruct Hin as [<-|Hin]; try contradiction.
  - exact (proj1 (cmd_get_self_info_frames (request_id d) s)).
  - exact (proj1 (cmd_get_contacts_frames (request_id d) s)).
  - exact (proj1 (cmd_send_message_frames (request_id d) (PyDict d) s)).
  - exact (proj1 (cmd_send_advert_frames (request_id d) s)).
  - exact (proj1 (cmd_login_frames (request_id d) (PyDict d) s)).
  - exact (proj1 (cmd_get_status_frames (request_id d) (PyDict d) s)).
  - exact (proj1 (cmd_set_name_frames (request_id d) (PyDict d) s)).
  - exact (proj1 (cmd_set_radio_frames (request_id d) (PyDict d) s)).
Qed.

(** X6. [ping] is answered "pong" in every state of the bridge, without
    touching the bridge or the device. *)
Theorem ping_needs_no_session (d : list (string * value)) (s : State) :
  names d "ping" = true ->
  handle_command (PyDict d) s =
  mkResult (Return (success (request_id d) (PyStr "pong"))) s [].
Proof.
  intros N. rewrite handle_command_dict. unfold names in N.
  apply eq_str_true in N. rewrite N. reflexivity.
Qed.

(** X7. A request whose [cmd] is none of the twelve command names (a
    misspelt name, a value that is no string, no [cmd] at all) is
    answered [success: false] with "Unknown command: " followed by the
    value as an f-string prints it; nothing else happens. *)
Theorem unknown_command_is_named (d : list (string * value)) (s : State) :
  forallb (fun c => negb (names d c)) known_commands = true ->
  handle_command (PyDict d) s =
  mkResult (Return (failure (request_id d) ("Unknown command: " ++ format (request_cmd d))))
           s [].
Proof.
  intros N. rewrite handle_command_dict. unfold names in N.
  cbn [known_commands forallb] in N.
  repeat (apply andb_true_iff in N; destruct N as [?H N]).
  repeat match goal with
         | H : negb _ = true |- _ => apply negb_true_iff in H
         end.
  unfold try_except, dispatch.
  repeat match goal with
         | H : eq_str _ _ = false |- _ => rewrite H; clear H
         end.
  reflexivity.
Qed.

End Dispatch.

(* ================================================================== *)
(** * Further properties: the session discipline *)

Section SessionDiscipline.

Context `{RT : Runtime}.

Lemma Sessions_app (a b c : option Client) (l1 l2 : list Exchange) :
  Sessions a l1 b -> Sessions b l2 c -> Sessions a (l1 ++ l2) c.
Proof.
  induction 1; intros H2; cbn [app]; try (constructor; auto; fail); auto.
Qed.

Lemma cmd_disconnect_disciplined cmd_id : disciplined (cmd_disconnect cmd_id).
Proof.
  intros s. unfold live. rewrite cmd_disconnect_run.
  destruct (meshcore (self s)); [destruct (answer _ _ _)|]; reduce;
    destruct (connected (self s)); sessions.
Qed.

Lemma cmd_shutdown_disciplined cmd_id : disciplined (cmd_shutdown cmd_id).
Proof.
  intros s. unfold live. unfold cmd_shutdown, cmd_disconnect.
  execute; try discriminate; resync; sessions.
Qed.

Lemma cmd_connect_disciplined cmd_id cmd_data : disciplined (cmd_connect cmd_id cmd_data).
Proof.
  intros s. unfold live. unfold cmd_connect, cmd_connect_handshake, cmd_disconnect.
  execute; try discriminate; resync; sessions.
Qed.

Lemma cmd_get_self_info_disciplined cmd_id : disciplined (cmd_get_self_info cmd_id).
Proof. intros s. unfold live, cmd_get_self_info. execute; try discriminate; resync; sessions. Qed.

Lemma cmd_get_contacts_disciplined cmd_id : disciplined (cmd_get_contacts cmd_id).
Proof. intros s. unfold live, cmd_get_contacts. execute; try discriminate; resync; sessions. Qed.

Lemma cmd_send_message_disciplined cmd_id cmd_data :
  disciplined (cmd_send_message cmd_id cmd_data).
Proof. intros s. unfold live, cmd_send_message. execute; try discriminate; resync; sessions. Qed.

Lemma cmd_send_advert_disciplined cmd_id : disciplined (cmd_send_advert cmd_id).
Proof. intros s. unfold live, cmd_send_advert. execute; try discriminate; resync; sessions. Qed.

Lemma cmd_login_disciplined cmd_id cmd_data : disciplined (cmd_login cmd_id cmd_data).
Proof. intros s. unfold live, cmd_login. execute; try discriminate; resync; sessions. Qed.

Lemma cmd_get_status_disciplined cmd_id cmd_data :
  disciplined (cmd_get_status cmd_id cmd_data).
Proof. intros s. unfold live, cmd_get_status. execute; try discriminate; resync; sessions. Qed.

Lemma cmd_set_name_disciplined cmd_id cmd_data : disciplined (cmd_set_name cmd_id cmd_data).
Proof. intros s. unfold live, cmd_set_name. execute; try discriminate; resync; sessions. Qed.

Lemma cmd_set_radio_disciplined cmd_id cmd_data :
  disciplined (cmd_set_radio cmd_id cmd_data).
Proof. intros s. unfold live, cmd_set_radio. execute; try discriminate; resync; sessions. Qed.

Lemma dispatch_disciplined cmd cmd_id cmd_data : disciplined (dispatch cmd cmd_id cmd_data).
Proof.
  unfold dispatch.
  repeat match goal with
         | |- disciplined (if ?b then _ else _) => destruct b
         end;
    first [ apply cmd_connect_disciplined | apply cmd_disconnect_disciplined
          | apply cmd_get_self_info_disciplined | apply cmd_get_contacts_disciplined
          | apply cmd_send_message_disciplined | apply cmd_send_advert_disciplined
          | apply cmd_login_disciplined | apply cmd_get_status_disciplined
          | apply cmd_set_name_disciplined | apply cmd_set_radio_disciplined
          | apply cmd_shutdown_disciplined
          | intros s; unfold ret; reduce; apply sessions_end ].
Qed.

Lemma handle_command_disciplined cmd_data : disciplined (handle_command cmd_data).
Proof.
  intros s. destruct cmd_data;
    try (rewrite handle_command_not_dict by (intros d; discriminate); apply sessions_end).
  rewrite handle_command_dict.
  destruct (try_except_internal (dispatch (request_cmd entries) (request_id entries)
                                   (PyDict entries)) (request_id entries) s) as (A & C & _).
  rewrite A, C. apply dispatch_disciplined.
Qed.

Lemma called_app (a b : list Event) : called (a ++ b) = (called a ++ called b)%list.
Proof.
  induction a as [|[x|line|e] a IH]; simpl;
    [reflexivity | now rewrite IH | exact IH | exact IH].
Qed.

Lemma called_calls (log : list Exchange) : called (map Called log) = log.
Proof. induction log as [|x log IH]; simpl; [reflexivity | now rewrite IH]. Qed.

Lemma called_print (line : value) (p : Process) :
  called (trace (print line p)) = called (trace p).
Proof. unfold print. cbn [trace]. rewrite called_app. simpl. apply app_nil_r. Qed.

Lemma called_die (e : Exception) (p : Process) :
  called (trace (die e p)) = called (trace p).
Proof. unfold die. cbn [trace]. rewrite called_app. simpl. apply app_nil_r. Qed.

Lemma loop_disciplined (input : list Input) :
  forall p : Process,
    Sessions None (called (trace p)) (live (self (state p))) ->
    Sessions None (called (trace (fst (loop input p))))
             (live (self (state (fst (loop input p))))).
Proof.
  unfold loop. generalize false as awaiting.
  induction input as [|i rest IH]; intros awaiting p K; cbn [turns].
  - now destruct (awaiting || running (self (state p))).
  - destruct (awaiting || running (self (state p))); [|exact K].
    destruct i as [| |e|e|cmd_data|];
      try (apply IH; try rewrite called_print; exact K).
    { destruct (exc_is_Exception e); [apply IH; rewrite called_print; exact K|].
      cbn [fst]. rewrite called_die. exact K. }
    rewrite await_spec.
    assert (K' : forall line,
               Sessions None
                 (called (trace (print line
                    {| state := after (handle_command cmd_data (state p));
                       trace := trace p ++
                         map Called (calls (handle_command cmd_data (state p))) |})))
                 (live (self (after (handle_command cmd_data (state p)))))).
    { intros line. rewrite called_print. cbn [trace].
      rewrite called_app, called_calls.
      exact (Sessions_app _ _ _ _ _ K (handle_command_disciplined cmd_data (state p))). }
    destruct (outcome (handle_command cmd_data (state p))) as [v|e];
      [|destruct (exc_is_Exception e)]; try (apply IH; apply K').
    cbn [fst]. rewrite called_die. cbn [die state].
    specialize (K' PyNone). rewrite called_print in K'. exact K'.
Qed.

(** X8. The bridge keeps to one session at a time, and a run that ends
    in order leaves none open. In the calls of a whole run, whatever the
    input and the device: a handshake is only made while no session is
    up; every method other than [connect] and [disconnect] is called on
    the client of the session that is up; and a session that came up is
    closed by a [disconnect] of its client before the next handshake.
    When [run] returns, that is, unless something that is not an
    [Exception] was raised out of it, the last session is closed too and
    the bridge is not connected; when [run] is left by such a raise, the
    session that was up is left as it is, without a [disconnect]. *)
Theorem sessions_are_closed (input : list Input) (w : W) :
  let done := fst (run input w) in
  Sessions None (called (trace done)) (live (self (state done))) /\
  (uncaught (trace done) = None ->
   Sessions None (called (trace done)) None /\
   connected (self (state done)) = false) /\
  (uncaught (trace done) <> None ->
   done = fst (loop input (print ready (spawn w)))).
Proof.
  cbv zeta. unfold run.
  pose proof (loop_disciplined input (print ready (spawn w)) (sessions_end None)) as K.
  destruct (loop input _) as [p unread]. cbn [fst] in *.
  destruct (uncaught (trace p)) eqn:U.
  { cbn [fst]. rewrite U. split; [exact K | split; [discriminate | reflexivity]]. }
  assert (G : Sessions None
                (called (trace (fst (if connected (self (state p))
                                     then snd (await (cmd_disconnect (PyStr "shutdown")) p)
                                     else p, unread)))) None /\
              connected (self (state (fst (if connected (self (state p))
                                     then snd (await (cmd_disconnect (PyStr "shutdown")) p)
                                     else p, unread)))) = false).
  { destruct (connected (self (state p))) eqn:C.
    - rewrite await_spec. cbn [fst snd state trace].
      rewrite called_app, called_calls.
      destruct (cmd_disconnect_outcome (PyStr "shutdown") (state p)) as [_ A].
      rewrite A. split; [|reflexivity].
      pose proof (cmd_disconnect_disciplined (PyStr "shutdown") (state p)) as D.
      rewrite A in D. exact (Sessions_app _ _ _ _ _ K D).
    - cbn [fst]. split; [|exact C]. unfold live in K. now rewrite C in K. }
  destruct G as [G C]. split; [|split; [intros _; split; assumption|]].
  - unfold live. rewrite C. exact G.
  - intros V. exfalso. apply V. clear V.
    destruct (connected (self (state p))); [|exact U].
    cbn [fst]. now rewrite uncaught_await.
Qed.

End SessionDiscipline.

(** The discipline does exclude something: no command without a session,
    and no second handshake while one is up. *)
Lemma sessions_exclude (mc mc' : Client) (o : Outcome value) :
  ~ Sessions None [ {| call := Invoke mc commands_send_advert; result := o |} ] None /\
  ~ Sessions (Some mc) [ {| call := Invoke mc' connect; result := o |} ] (Some mc').
Proof. split; intros H; inversion H; discriminate. Qed.

(* ================================================================== *)
(** * Further properties: connect *)

Section Connect.

Context `{RT : Runtime}.

(** X9. Whenever the handshake of a [connect] answers something, the
    bridge ends connected to exactly the client that answered, built on
    the connection it holds, and [running] is untouched. The command then
    serializes the identity that client has cached ([{}] if it has
    none): its answer is [success: true] with [connected: true] and that
    record under [self_info]; and if the identity cannot be serialized
    the exception of the serializer leaves the command, while the
    session is up all the same. *)
Theorem handshake_with_response
    (cmd_id cmd_data : value) (s : State) (mc : Client) (v : value) :
  In {| call := Invoke mc connect; result := Return v |}
     (calls (cmd_connect cmd_id cmd_data s)) ->
  is_None v = false ->
  let r := cmd_connect cmd_id cmd_data s in
  connected (self (after r)) = true /\
  meshcore (self (after r)) = Some mc /\
  mc = MeshCore (connection (self (after r))) /\
  present (connection (self (after r))) = true /\
  running (self (after r)) = running (self s) /\
  outcome r = match _serialize_self_info (cached_info mc (world (after r))) with
              | Return info =>
                  Return (success cmd_id (PyDict [("connected", PyBool true);
                                                  ("self_info", info)]))
              | Raise e => Raise e
              end.
Proof.
  cbv zeta. unfold cached_info, cmd_connect, cmd_connect_handshake, cmd_disconnect.
  execute; log_cases; intros H N; log_cases;
    try discriminate; try congruence;
    (split; [reflexivity | split; [reflexivity | split; [reflexivity |
     split; [reflexivity | split; [reflexivity|]]]]]);
    reduce; congruence.
Qed.

(** X10. When the handshake of a [connect] raises, the exception leaves
    the command, the bridge is not connected, but it keeps the client and
    the connection it had just built: they are not cleared as they are
    when the handshake answers nothing. A [disconnect] sent afterwards
    calls [disconnect] on that client and clears them. *)
Theorem handshake_that_raises
    (cmd_id cmd_data : value) (s : State) (mc : Client) (e : Exception) :
  In {| call := Invoke mc connect; result := Raise e |}
     (calls (cmd_connect cmd_id cmd_data s)) ->
  let r := cmd_connect cmd_id cmd_data s in
  outcome r = Raise e /\
  connected (self (after r)) = false /\
  meshcore (self (after r)) = Some mc /\
  mc = MeshCore (connection (self (after r))) /\
  present (connection (self (after r))) = true /\
  forall cmd_id',
    exists o, calls (cmd_disconnect cmd_id' (after r))
              = [ {| call := Invoke mc disconnect; result := o |} ] /\
              cleared (self (after (cmd_disconnect cmd_id' (after r)))).
Proof.
  intros H r.
  assert (P : outcome r = Raise e /\
              connected (self (after r)) = false /\
              meshcore (self (after r)) = Some mc /\
              mc = MeshCore (connection (self (after r))) /\
              present (connection (self (after r))) = true).
  { subst r. revert H. unfold cmd_connect, cmd_connect_handshake, cmd_disconnect.
    execute; log_cases; intros H; log_cases; try discriminate;
      repeat split; reduce; assumption. }
  destruct P as (O & C & M & B & Pc).
  split; [exact O | split; [exact C | split; [exact M | split; [exact B | split; [exact Pc|]]]]].
  intros cmd_id'. rewrite cmd_disconnect_run, M.
  destruct (cmd_disconnect_outcome cmd_id' (after r)) as [_ A].
  destruct (answer lib (Invoke mc disconnect) (world (after r))) as [o w'].
  exists o. split; [reflexivity | apply dropped_cleared].
Qed.

(** X11. The objects a [connect] builds are those the request asks for,
    with the defaults filled in: a [TCPConnection] on [host] (default
    "localhost") and [tcp_port] (default 4403) when [type] is "tcp", and
    for any other or missing [type] a [SerialConnection] on [port]
    (default "/dev/ttyACM0") at [baud] (default 115200). With the package
    installed (and its [TCPConnection], for a tcp request), the calls of
    a [connect] are exactly: the [disconnect] of the old session if one
    was up, then that transport is built, then the client on that
    transport, then the handshake on that client (a constructor that
    raises ends them). So a [connect] makes no other call. *)
Theorem connect_builds_what_is_asked
    (cmd_id : value) (d : list (string * value)) (s : State) :
  MESHCORE_AVAILABLE = true ->
  (eq_str (param d "type" (PyStr "serial")) "tcp" = true -> TCP_AVAILABLE = true) ->
  let r := cmd_connect cmd_id (PyDict d) s in
  let before := if connected (self s) then cmd_disconnect cmd_id s
                else mkResult (Return PyNone) s [] in
  calls r = (calls before
             ++ handshake_calls (requested_connection d) (world (after before)))%list /\
  Forall (connects_to (requested_connection d)) (calls r).
Proof.
  intros A T. cbv zeta. split.
  - revert T.
    unfold handshake_calls, cmd_connect, cmd_connect_handshake, cmd_disconnect,
      requested_connection, param.
    cbn [get]. unfold_monad. rewrite A. reduce. repeat branch; intros T;
      try (specialize (T eq_refl); rewrite T in *; discriminate);
      rewrite ?app_nil_r;
      repeat match goal with
             | E : ?x = _ |- context [?x] => rewrite E
             end;
      reduce; reflexivity.
  - apply Forall_forall. intros x.
    unfold cmd_connect, cmd_connect_handshake, cmd_disconnect, requested_connection, param.
    cbn [get]. execute; log_cases; intros H; log_cases;
      unfold connects_to; cbn [call]; reflexivity.
Qed.

(** X12. A [connect] sent while a session is up first closes it: the
    first call is the [disconnect] of the client that was connected,
    before any new object is built. *)
Theorem reconnect_closes_first
    (cmd_id cmd_data : value) (s : State) (mc : Client) :
  MESHCORE_AVAILABLE = true ->
  connected (self s) = true ->
  meshcore (self s) = Some mc ->
  exists rest,
    calls (cmd_connect cmd_id cmd_data s)
    = {| call := Invoke mc disconnect;
         result := fst (answer lib (Invoke mc disconnect) (world s)) |} :: rest.
Proof.
  intros A C M. unfold cmd_connect, cmd_connect_handshake, cmd_disconnect.
  unfold_monad. repeat (progress (rewrite ?A, ?C, ?M; reduce)).
  destruct (answer lib (Invoke mc disconnect) (world s)) as [o w']. reduce.
  repeat branch; eexists; reflexivity.
Qed.

Lemma cmd_connect_not_installed (cmd_id cmd_data : value) (s : State) :
  MESHCORE_AVAILABLE = false ->
  cmd_connect cmd_id cmd_data s = mkResult (Return (failure cmd_id NOT_INSTALLED)) s [].
Proof. intros A. unfold cmd_connect. rewrite A. reflexivity. Qed.

Lemma handle_command_not_installed (cmd_data : value) (s : State) :
  MESHCORE_AVAILABLE = false ->
  cleared (self s) ->
  calls (handle_command cmd_data s) = [] /\
  cleared (self (after (handle_command cmd_data s))).
Proof.
  intros A K. destruct cmd_data;
    try (rewrite handle_command_not_dict by (intros d; discriminate); split; [reflexivity | exact K]).
  rewrite handle_command_dict.
  destruct (try_except_internal (dispatch (request_cmd entries) (request_id entries)
                                   (PyDict entries)) (request_id entries) s) as (E1 & E2 & _).
  rewrite E1, E2. clear E1 E2.
  destruct K as (C & M & X).
  assert (G : not_ready (self s) = true) by (unfold not_ready; rewrite C; reflexivity).
  unfold dispatch.
  repeat match goal with
         | |- context [if ?b then _ else _] => destruct b
         end;
    rewrite ?cmd_connect_not_installed, ?cmd_get_self_info_refused,
      ?cmd_get_contacts_refused, ?cmd_send_message_refused, ?cmd_send_advert_refused,
      ?cmd_login_refused, ?cmd_get_status_refused, ?cmd_set_name_refused,
      ?cmd_set_radio_refused, ?cmd_disconnect_run, ?cmd_shutdown_run, ?M, ?C
      by assumption;
    unfold refused, ret; reduce; repeat split; assumption.
Qed.

Lemma loop_not_installed (input : list Input) :
  MESHCORE_AVAILABLE = false ->
  forall p : Process,
    cleared (self (state p)) ->
    called (trace p) = [] ->
    called (trace (fst (loop input p))) = [] /\
    cleared (self (state (fst (loop input p)))).
Proof.
  intros A. unfold loop. generalize false as awaiting.
  induction input as [|i rest IH]; intros awaiting p K T; cbn [turns].
  - now destruct (awaiting || running (self (state p))).
  - destruct (awaiting || running (self (state p))); [|now split].
    destruct i as [| |e|e|cmd_data|];
      try (apply IH; [exact K | try rewrite called_print; exact T]).
    { destruct (exc_is_Exception e);
        [apply IH; [exact K | rewrite called_print; exact T]|].
      cbn [fst]. rewrite called_die. now split. }
    rewrite await_spec.
    destruct (handle_command_not_installed cmd_data (state p) A K) as [L K'].
    destruct (outcome (handle_command cmd_data (state p))) as [v|e];
      [|destruct (exc_is_Exception e)];
      try (apply IH; [exact K' | rewrite called_print; cbn [trace];
                                 now rewrite called_app, called_calls, L, T]).
    cbn [fst]. rewrite called_die. cbn [die state trace].
    now rewrite called_app, called_calls, L, T.
Qed.

(** X13. Without the meshcore package a [connect] is refused at once,
    with nothing touched; and so the bridge never holds a handle and
    never makes a call into the package, whatever it is sent. *)
Theorem without_meshcore_nothing_is_called :
  MESHCORE_AVAILABLE = false ->
  (forall cmd_id cmd_data s,
     cmd_connect cmd_id cmd_data s
     = mkResult (Return (failure cmd_id NOT_INSTALLED)) s []) /\
  (forall input w,
     called (trace (fst (run input w))) = [] /\
     cleared (self (state (fst (run input w))))).
Proof.
  intros A. split; [intros; now apply cmd_connect_not_installed|].
  intros input w. unfold run.
  destruct (loop_not_installed input A (print ready (spawn w))
              (conj eq_refl (conj eq_refl eq_refl)) eq_refl) as [T K].
  destruct (loop input _) as [p unread]. cbn [fst] in *.
  destruct K as (C & M & X). rewrite C.
  destruct (uncaught (trace p)); now split.
Qed.

(** X14. With the package but without its [TCPConnection], a [connect]
    of type "tcp" is refused and builds nothing; but the refusal comes
    after the old session is closed: a bridge that was connected is
    disconnected by the refused request. *)
Theorem connect_without_tcp (cmd_id : value) (d : list (string * value)) (s : State) :
  MESHCORE_AVAILABLE = true ->
  TCP_AVAILABLE = false ->
  eq_str (param d "type" (PyStr "serial")) "tcp" = true ->
  let r := cmd_connect cmd_id (PyDict d) s in
  outcome r = Return (failure cmd_id TCP_NOT_SUPPORTED) /\
  self (after r) = (if connected (self s) then dropped (self s) else self s) /\
  calls r = (if connected (self s) then calls (cmd_disconnect cmd_id s) else []).
Proof.
  intros A T K. cbv zeta. unfold param in K.
  unfold cmd_connect. rewrite cmd_disconnect_run. unfold cmd_disconnect.
  cbn [get]. unfold_monad. rewrite A, T, K. reduce.
  unfold dropped. repeat branch; repeat split; reduce; rewrite ?app_nil_r; reflexivity.
Qed.

End Connect.

(* ================================================================== *)
(** * Further properties: what the session commands send and answer *)

Section Records.

(** X15. The two serializers emit a fixed schema, whatever the device
    record holds: always the same keys in the same order, so a field of
    the device record that is not in the schema never leaks out. The
    fields other than the position are copied as they are, a missing one
    as [None] and a missing name or key as the empty string. In a contact
    record [adv_type] is what the device record has under [type], and
    [public_key] is the key of the contacts table, not a field of the
    record. *)
Theorem records_have_a_fixed_schema (d : list (string * value)) (key : string) :
  exists info contact,
    _serialize_self_info (PyDict d) = Return info /\
    serialize_contact key (PyDict d) = Return contact /\
    keys info = self_info_keys /\
    keys contact = contact_keys /\
    field info "public_key" = param d "public_key" (PyStr "") /\
    field info "name" = param d "name" (PyStr "") /\
    Forall (fun k => field info k = field (PyDict d) k)
           ["adv_type"; "tx_power"; "max_tx_power";
            "radio_freq"; "radio_bw"; "radio_sf"; "radio_cr"] /\
    field contact "public_key" = PyStr key /\
    field contact "adv_name" = param d "adv_name" (PyStr "") /\
    field contact "name" = param d "name" (PyStr "") /\
    field contact "rssi" = field (PyDict d) "rssi" /\
    field contact "snr" = field (PyDict d) "snr" /\
    field contact "adv_type" = field (PyDict d) "type".
Proof.
  unfold _serialize_self_info, serialize_contact.
  rewrite !get_field, !or_else_Return. cbn [obind get].
  eexists. eexists. split; [reflexivity | split; [reflexivity|]].
  repeat split; repeat constructor.
Qed.

Lemma contact_public_key (key : string) (contact record : value) :
  serialize_contact key contact = Return record ->
  field record "public_key" = PyStr key.
Proof.
  intros E. destruct (serialize_contact_inv _ _ _ E) as [d ->].
  revert E. unfold serialize_contact.
  rewrite !get_field, !or_else_Return. cbn [obind get].
  intros E. injection E as <-. reflexivity.
Qed.

Lemma serialize_contacts_app (items : list (string * value)) :
  forall acc out,
    serialize_contacts items acc = Return out ->
    exists records,
      out = (acc ++ records)%list /\
      map (fun c => field c "public_key") records = map (fun kc => PyStr (fst kc)) items.
Proof.
  induction items as [|[key contact] rest IH]; intros acc out E.
  - simpl in E. injection E as <-. exists []. now rewrite app_nil_r.
  - simpl in E. destruct (serialize_contact key contact) as [c|e] eqn:Ec; [|discriminate].
    simpl in E. destruct (IH _ _ E) as (records & -> & Keys).
    exists (c :: records). split; [now rewrite <- app_assoc|].
    destruct (serialize_contact_inv _ _ _ Ec) as [d ->].
    cbn [map fst]. f_equal; [exact (contact_public_key _ _ _ Ec) | exact Keys].
Qed.

Lemma contacts_listing (items : list (string * value)) :
  forallb (fun kc => is_dict (snd kc)) items = true ->
  exists out,
    serialize_contacts items [] = Return out /\
    length out = length items /\
    map (fun c => field c "public_key") out = map (fun kc => PyStr (fst kc)) items.
Proof.
  intros D. destruct (serialize_contacts_returns items [] D) as [out E].
  destruct (serialize_contacts_app items [] out E) as (records & -> & Keys).
  exists records. split; [exact E | split; [|exact Keys]].
  rewrite <- (length_map (fun c => field c "public_key") records), Keys.
  apply length_map.
Qed.

(** X16. The contact list has one record per entry of the contacts
    table, in the order of the table, each under the key of its entry,
    provided every entry is a dictionary; one entry that is not makes the
    whole listing fail with the [AttributeError] of that entry, and
    nothing is listed. *)
Theorem contacts_are_listed_in_order (items : list (string * value)) :
  (forallb (fun kc => is_dict (snd kc)) items = true ->
   exists out,
     serialize_contacts items [] = Return out /\
     length out = length items /\
     map (fun c => field c "public_key") out = map (fun kc => PyStr (fst kc)) items) /\
  (forall before key contact behind,
     items = (before ++ (key, contact) :: behind)%list ->
     forallb (fun kc => is_dict (snd kc)) before = true ->
     is_dict contact = false ->
     serialize_contacts items [] = Raise (AttributeError contact "get")).
Proof.
  split; [apply contacts_listing|].
  intros before key contact behind -> D N. generalize (@nil value).
  induction before as [|[k c] before IH]; intros acc.
  - simpl. destruct contact; try discriminate; reflexivity.
  - cbn [forallb snd] in D. apply andb_true_iff in D as [Dc Dl].
    destruct c; try discriminate.
    destruct (contact_position k entries) as (r & Er & _).
    simpl. rewrite Er. simpl. apply IH, Dl.
Qed.

End Records.

Section SessionCommands.

Context `{RT : Runtime}.

(** X17. [get_contacts] first has the device refresh its contacts (one
    call), then lists the contacts table as it is after that call, one
    record per contact in the order of the table; the bridge itself is
    unchanged. *)
Theorem contacts_are_read_after_the_refresh
    (cmd_id : value) (s : State) (mc : Client) (v : value)
    (items : list (string * value)) :
  connected (self s) = true ->
  meshcore (self s) = Some mc ->
  let refresh := Invoke mc commands_get_contacts in
  let w' := snd (answer lib refresh (world s)) in
  fst (answer lib refresh (world s)) = Return v ->
  contacts lib mc w' = PyDict items ->
  forallb (fun kc => is_dict (snd kc)) items = true ->
  exists out,
    cmd_get_contacts cmd_id s
    = mkResult (Return (success cmd_id (PyList out)))
               {| self := self s; world := w' |}
               [ {| call := refresh; result := Return v |} ] /\
    map (fun c => field c "public_key") out = map (fun kc => PyStr (fst kc)) items.
Proof.
  intros C M refresh w' A T D.
  destruct (contacts_listing items D) as (out & E & _ & Keys).
  exists out. split; [|exact Keys].
  subst refresh w'. unfold cmd_get_contacts. through_the_guard C M.
  destruct (answer lib (Invoke mc commands_get_contacts) (world s)) as [o w'].
  cbn [fst snd] in *. subst o. reduce.
  repeat (progress (rewrite ?C, ?M, ?T; reduce)).
  cbn [Py.items]. rewrite E. reflexivity.
Qed.

(** X18. [get_self_info] never calls the device and changes nothing: it
    answers from what the client has cached. While the session is up its
    answer is the serialization of the cached identity ([{}] if the
    client has cached none), and the exception of the serializer if that
    fails: the record made of a cached dictionary, and the record with
    empty names and every other field [None] when nothing is cached. *)
Theorem self_info_comes_from_the_cache (cmd_id : value) (s : State) :
  calls (cmd_get_self_info cmd_id s) = [] /\
  after (cmd_get_self_info cmd_id s) = s /\
  (forall mc,
     connected (self s) = true -> meshcore (self s) = Some mc ->
     truthy (self_info lib mc (world s)) = false ->
     outcome (cmd_get_self_info cmd_id s) = Return (success cmd_id blank_identity)) /\
  (forall mc,
     connected (self s) = true -> meshcore (self s) = Some mc ->
     cmd_get_self_info cmd_id s
     = mkResult (match _serialize_self_info (cached_info mc (world s)) with
                 | Return record => Return (success cmd_id record)
                 | Raise e => Raise e
                 end) s []) /\
  (forall mc d,
     connected (self s) = true -> meshcore (self s) = Some mc ->
     self_info lib mc (world s) = PyDict d -> d <> [] ->
     exists record,
       _serialize_self_info (PyDict d) = Return record /\
       outcome (cmd_get_self_info cmd_id s) = Return (success cmd_id record)).
Proof.
  assert (G : forall mc,
             connected (self s) = true -> meshcore (self s) = Some mc ->
             cmd_get_self_info cmd_id s
             = mkResult (match _serialize_self_info (cached_info mc (world s)) with
                         | Return record => Return (success cmd_id record)
                         | Raise e => Raise e
                         end) s []).
  { intros mc C M. unfold cached_info, cmd_get_self_info. through_the_guard C M.
    destruct s as [b w]. reduce.
    destruct (_serialize_self_info _) as [record|e]; reflexivity. }
  split; [|split; [|split; [|split]]].
  - unfold cmd_get_self_info. execute; reflexivity.
  - unfold cmd_get_self_info. execute; reflexivity.
  - intros mc C M T. unfold cmd_get_self_info. through_the_guard C M.
    rewrite T. reflexivity.
  - exact G.
  - intros mc d C M I N. rewrite (G mc C M). unfold cached_info. rewrite I.
    destruct d as [|kv d]; [contradiction|]. cbn [truthy].
    destruct (self_info_position (kv :: d)) as (record & E & _).
    exists record. split; [exact E|]. cbn [outcome]. now rewrite E.
Qed.

(** X19. [login] sends the credentials of the request as they are (an
    absent key or password as the empty string) in one call, and
    acknowledges [logged_in: true] as soon as that call returns,
    whatever it returned: the answer of the remote node is not looked
    at. If the call raises, the exception leaves the command. *)
Theorem login_is_acknowledged_unverified
    (cmd_id : value) (d : list (string * value)) (s : State) (mc : Client) :
  connected (self s) = true ->
  meshcore (self s) = Some mc ->
  let send := Invoke mc (commands_send_login (param d "public_key" (PyStr ""))
                                             (param d "password" (PyStr ""))) in
  let r := cmd_login cmd_id (PyDict d) s in
  calls r = [ {| call := send; result := fst (answer lib send (world s)) |} ] /\
  (forall v, fst (answer lib send (world s)) = Return v ->
     outcome r = Return (success cmd_id (PyDict [("logged_in", PyBool true)]))) /\
  (forall e, fst (answer lib send (world s)) = Raise e -> outcome r = Raise e).
Proof.
  intros C M. unfold cmd_login. through_the_guard C M. one_call.
Qed.

(** X20. [set_name] pushes the name of the request (the empty string
    when the request has none) in one call and, when the call returns,
    echoes that name in its answer. If the call raises, the exception
    leaves the command. *)
Theorem set_name_echoes_the_name
    (cmd_id : value) (d : list (string * value)) (s : State) (mc : Client) :
  connected (self s) = true ->
  meshcore (self s) = Some mc ->
  let name := param d "name" (PyStr "") in
  let send := Invoke mc (commands_set_name name) in
  let r := cmd_set_name cmd_id (PyDict d) s in
  calls r = [ {| call := send; result := fst (answer lib send (world s)) |} ] /\
  (forall v, fst (answer lib send (world s)) = Return v ->
     outcome r = Return (success cmd_id (PyDict [("name", name)]))) /\
  (forall e, fst (answer lib send (world s)) = Raise e -> outcome r = Raise e).
Proof.
  intros C M. unfold cmd_set_name. through_the_guard C M. one_call.
Qed.

(** X21. [set_radio] pushes the four radio parameters of the request as
    they are, unchecked, a missing one as [None], in one call, and
    acknowledges [set: true] when the call returns. If the call raises,
    the exception leaves the command. *)
Theorem set_radio_passes_parameters_on
    (cmd_id : value) (d : list (string * value)) (s : State) (mc : Client) :
  connected (self s) = true ->
  meshcore (self s) = Some mc ->
  let send := Invoke mc (commands_set_radio (param d "freq" PyNone) (param d "bw" PyNone)
                                            (param d "sf" PyNone) (param d "cr" PyNone)) in
  let r := cmd_set_radio cmd_id (PyDict d) s in
  calls r = [ {| call := send; result := fst (answer lib send (world s)) |} ] /\
  (forall v, fst (answer lib send (world s)) = Return v ->
     outcome r = Return (success cmd_id (PyDict [("set", PyBool true)]))) /\
  (forall e, fst (answer lib send (world s)) = Raise e -> outcome r = Raise e).
Proof.
  intros C M. unfold cmd_set_radio. through_the_guard C M. one_call.
Qed.

End SessionCommands.

(* ================================================================== *)
(** * Further properties: what the two [except Exception] catch *)

Section WhatIsCaught.

Context `{RT : Runtime}.

Hypothesis package : raises_Exceptions_only.

Lemma get_raises (obj : value) (key : string) (default : value) (e : Exception) :
  get obj key default = Raise e -> exc_is_Exception e = true.
Proof. destruct obj; cbn [get]; intros E; try discriminate; now injection E as <-. Qed.

Lemma items_raises (obj : value) (e : Exception) :
  items obj = Raise e -> exc_is_Exception e = true.
Proof. destruct obj; cbn [items]; intros E; try discriminate; now injection E as <-. Qed.

Lemma _serialize_self_info_raises (info : value) (e : Exception) :
  _serialize_self_info info = Raise e -> exc_is_Exception e = true.
Proof.
  destruct info; try (intros E; injection E as <-; reflexivity).
  destruct (self_info_position entries) as (record & -> & _). discriminate.
Qed.

Lemma serialize_contacts_raises (items : list (string * value)) :
  forall acc e, serialize_contacts items acc = Raise e -> exc_is_Exception e = true.
Proof.
  induction items as [|[key contact] rest IH]; intros acc e E; [discriminate|].
  cbn [serialize_contacts] in E. destruct contact;
    try (injection E as <-; reflexivity).
  destruct (contact_position key entries) as (record & R & _).
  rewrite R in E. exact (IH _ _ E).
Qed.

Lemma package_raises (c : Call) (w w' : W) (e : Exception) :
  answer lib c w = (Raise e, w') -> exc_is_Exception e = true.
Proof. intros H. apply (package c w e). now rewrite H. Qed.

#[local] Hint Resolve get_raises items_raises _serialize_self_info_raises
  serialize_contacts_raises package_raises : caught.

Lemma cmd_connect_catchable cmd_id cmd_data : catchable (cmd_connect cmd_id cmd_data).
Proof.
  intros s. unfold cmd_connect, cmd_connect_handshake, cmd_disconnect. execute; caught.
Qed.

Lemma cmd_disconnect_catchable cmd_id : catchable (cmd_disconnect cmd_id).
Proof.
  intros s e. destruct (cmd_disconnect_outcome cmd_id s) as [O _]. rewrite O. discriminate.
Qed.

Lemma cmd_shutdown_catchable cmd_id : catchable (cmd_shutdown cmd_id).
Proof.
  intros s e. destruct (cmd_shutdown_outcome cmd_id s) as [O _]. rewrite O. discriminate.
Qed.

Lemma cmd_get_self_info_catchable cmd_id : catchable (cmd_get_self_info cmd_id).
Proof. intros s. unfold cmd_get_self_info. execute; caught. Qed.

Lemma cmd_get_contacts_catchable cmd_id : catchable (cmd_get_contacts cmd_id).
Proof. intros s. unfold cmd_get_contacts. execute; caught. Qed.

Lemma cmd_send_message_catchable cmd_id cmd_data :
  catchable (cmd_send_message cmd_id cmd_data).
Proof. intros s. unfold cmd_send_message. execute; caught. Qed.

Lemma cmd_send_advert_catchable cmd_id : catchable (cmd_send_advert cmd_id).
Proof. intros s. unfold cmd_send_advert. execute; caught. Qed.

Lemma cmd_login_catchable cmd_id cmd_data : catchable (cmd_login cmd_id cmd_data).
Proof. intros s. unfold cmd_login. execute; caught. Qed.

Lemma cmd_get_status_catchable cmd_id cmd_data : catchable (cmd_get_status cmd_id cmd_data).
Proof. intros s. unfold cmd_get_status. execute; caught. Qed.

Lemma cmd_set_name_catchable cmd_id cmd_data : catchable (cmd_set_name cmd_id cmd_data).
Proof. intros s. unfold cmd_set_name. execute; caught. Qed.

Lemma cmd_set_radio_catchable cmd_id cmd_data : catchable (cmd_set_radio cmd_id cmd_data).
Proof. intros s. unfold cmd_set_radio. execute; caught. Qed.

Lemma dispatch_catchable cmd cmd_id cmd_data : catchable (dispatch cmd cmd_id cmd_data).
Proof.
  unfold dispatch.
  repeat match goal with
         | |- catchable (if ?b then _ else _) => destruct b
         end;
    first [ apply cmd_connect_catchable | apply cmd_disconnect_catchable
          | apply cmd_get_self_info_catchable | apply cmd_get_contacts_catchable
          | apply cmd_send_message_catchable | apply cmd_send_advert_catchable
          | apply cmd_login_catchable | apply cmd_get_status_catchable
          | apply cmd_set_name_catchable | apply cmd_set_radio_catchable
          | apply cmd_shutdown_catchable
          | intros s e; unfold ret; cbn [outcome]; discriminate ].
Qed.

(** With such a package a request object is always answered; anything
    else raises the [AttributeError] of its missing [get]. *)
Lemma handle_command_catchable cmd_data : catchable (handle_command cmd_data).
Proof.
  intros s e. destruct cmd_data;
    try (rewrite handle_command_not_dict by (intros d; discriminate);
         intros E; injection E as <-; reflexivity).
  rewrite handle_command_dict.
  destruct (try_except_internal (dispatch (request_cmd entries) (request_id entries)
                                   (PyDict entries)) (request_id entries) s) as (_ & _ & O).
  rewrite O.
  destruct (outcome (dispatch _ _ _ s)) as [r|e'] eqn:E; [discriminate|].
  rewrite (dispatch_catchable _ _ _ s e' E). discriminate.
Qed.

Lemma turns_return (input : list Input) :
  forall (awaiting : bool) (p : Process),
    forallb (fun i => negb (aborts_read i)) input = true ->
    uncaught (trace p) = None ->
    uncaught (trace (fst (turns awaiting input p))) = None.
Proof.
  induction input as [|i rest IH]; intros awaiting p F U; cbn [turns].
  - now destruct (awaiting || running (self (state p))).
  - destruct (awaiting || running (self (state p))); [|exact U].
    cbn [forallb] in F. apply andb_true_iff in F as [Fi F].
    destruct i as [| |e|e|cmd_data|];
      try (apply IH; [exact F | rewrite ?uncaught_print; exact U]).
    + cbn [aborts_read] in Fi. apply negb_true_iff, negb_false_iff in Fi. rewrite Fi.
      apply IH; [exact F | rewrite uncaught_print; exact U].
    + pose proof (uncaught_await (handle_command cmd_data) p) as U1. rewrite U in U1.
      pose proof (handle_command_catchable cmd_data (state p)) as X.
      rewrite await_spec in *. cbn [snd] in U1.
      destruct (outcome (handle_command cmd_data (state p))) as [v|e];
        [|rewrite (X e eq_refl)];
        (apply IH; [exact F | rewrite uncaught_print; exact U1]).
Qed.


End WhatIsCaught.

(* ================================================================== *)
(** * The further properties at concrete inputs *)


(** [signal_lets_the_turn_finish] on a signal that arrives before two
    pings: the first is answered, the second is not read. *)
Lemma signal_lets_the_turn_finish_witness :
  let p := @spawn silent tt in
  let rest := [request_line (request "2" "ping" [])] in
  running (self (state p)) = true /\
  @loop silent (Signal :: request_line (request "1" "ping" []) :: rest) p
  = (print (success (PyStr "1") (PyStr "pong")) (shutdown_handler p), rest).
Proof.
  cbv zeta. split; [reflexivity|].
  destruct (@signal_lets_the_turn_finish silent [request_line (request "2" "ping" [])]
              (@spawn silent tt) eq_refl) as (_ & _ & _ & _ & _ & _ & _ & _ & L).
  exact (eq_trans (L (PyDict (request "1" "ping" []))) eq_refl).
Defined.



(** [session_commands_keep_the_bridge] on a send that fails. *)
Lemma session_commands_keep_the_bridge_witness :
  let d := request "6" "send_message" [("text", PyStr "hi"); ("to", PyStr "a1b2c3")] in
  let s := @mkState failing up tt in
  In "send_message" session_commands /\
  names d "send_message" = true /\
  field (match outcome (@handle_command failing (PyDict d) s) with
         | Return v => v
         | Raise _ => PyNone
         end) "success" = PyBool false /\
  self (after (@handle_command failing (PyDict d) s)) = up.
Proof.
  cbv zeta.
  assert (Hin : In "send_message" session_commands) by (right; right; left; reflexivity).
  split; [exact Hin | split; [reflexivity | split; [reflexivity|]]].
  exact (@session_commands_keep_the_bridge failing
           (request "6" "send_message" [("text", PyStr "hi"); ("to", PyStr "a1b2c3")])
           "send_message" (@mkState failing up tt) Hin eq_refl).
Defined.

(** [ping_needs_no_session] in a fresh bridge. *)
Lemma ping_needs_no_session_witness :
  let s := @mkState silent __init__ tt in
  names (request "1" "ping" []) "ping" = true /\
  @handle_command silent (PyDict (request "1" "ping" [])) s
  = mkResult (Return (success (PyStr "1") (PyStr "pong"))) s [].
Proof.
  cbv zeta. split; [reflexivity|].
  exact (@ping_needs_no_session silent (request "1" "ping" [])
           (@mkState silent __init__ tt) eq_refl).
Defined.

(** [unknown_command_is_named] on a request without [cmd] and on one
    whose [cmd] is a number. *)
Lemma unknown_command_is_named_witness :
  let s := @mkState silent __init__ tt in
  forallb (fun c => negb (names [("id", PyStr "7")] c)) known_commands = true /\
  forallb (fun c => negb (names [("id", PyStr "8"); ("cmd", PyInt 3)] c)) known_commands
  = true /\
  @handle_command silent (PyDict [("id", PyStr "7")]) s
  = mkResult (Return (failure (PyStr "7") "Unknown command: ")) s [] /\
  @handle_command silent (PyDict [("id", PyStr "8"); ("cmd", PyInt 3)]) s
  = mkResult (Return (failure (PyStr "8") "Unknown command: <int>")) s [].
Proof.
  cbv zeta. split; [reflexivity | split; [reflexivity | split]].
  - exact (@unknown_command_is_named silent [("id", PyStr "7")]
             (@mkState silent __init__ tt) eq_refl).
  - exact (@unknown_command_is_named silent [("id", PyStr "8"); ("cmd", PyInt 3)]
             (@mkState silent __init__ tt) eq_refl).
Defined.

(** [sessions_are_closed] on a run that reaches the end of its input
    with a session up, and on one that a cancelled send aborts. *)
Lemma sessions_are_closed_witness :
  let mc := MeshCore (Some default_port) in
  let hello := [request_line (request "1" "connect" [])] in
  let sends := map request_line [request "1" "connect" []; request "2" "send_message" []] in
  (uncaught (trace (fst (@run companion hello tt))) = None /\
   Sessions None (called (trace (fst (@run companion hello tt)))) None /\
   connected (self (state (fst (@run companion hello tt)))) = false /\
   last (called (trace (fst (@run companion hello tt))))
        {| call := NewMeshCore mc; result := Return PyNone |}
   = {| call := Invoke mc disconnect; result := Return PyNone |}) /\
  (uncaught (trace (fst (@run cancelling sends tt))) = Some CancelledError /\
   Sessions None (called (trace (fst (@run cancelling sends tt)))) (Some mc) /\
   connected (self (state (fst (@run cancelling sends tt)))) = true /\
   last (called (trace (fst (@run cancelling sends tt))))
        {| call := NewMeshCore mc; result := Return PyNone |}
   = {| call := Invoke mc (commands_send_chan_msg (PyInt 0) (PyStr ""));
        result := Raise CancelledError |}).
Proof.
  cbv zeta. split.
  - destruct (@sessions_are_closed companion [request_line (request "1" "connect" [])] tt)
      as (_ & K & _).
    destruct (K eq_refl) as [S C].
    split; [reflexivity | split; [exact S | split; [exact C | reflexivity]]].
  - destruct (@sessions_are_closed cancelling
                (map request_line [request "1" "connect" []; request "2" "send_message" []])
                tt) as (S & _).
    split; [reflexivity | split; [exact S | split; reflexivity]].
Defined.

(** [handshake_with_response] on the companion node. *)
Lemma handshake_with_response_witness :
  let s := @mkState companion __init__ tt in
  let r := @cmd_connect companion (PyStr "1") (PyDict (request "1" "connect" [])) s in
  In {| call := Invoke (MeshCore (Some default_port)) connect;
        result := Return node_identity |} (calls r) /\
  is_None node_identity = false /\
  self (after r) = up /\
  outcome r
  = Return (success (PyStr "1")
              (PyDict [("connected", PyBool true);
                       ("self_info",
                        PyDict [("public_key", PyStr "a1b2c3"); ("name", PyStr "node-1");
                                ("adv_type", PyNone); ("tx_power", PyNone);
                                ("max_tx_power", PyNone); ("radio_freq", PyNone);
                                ("radio_bw", PyNone); ("radio_sf", PyNone);
                                ("radio_cr", PyNone);
                                ("latitude", PyNone); ("longitude", PyNone)])])).
Proof.
  cbv zeta.
  assert (Hin : In {| call := Invoke (MeshCore (Some default_port)) connect;
                      result := Return node_identity |}
                   (calls (@cmd_connect companion (PyStr "1")
                             (PyDict (request "1" "connect" []))
                             (@mkState companion __init__ tt))))
    by (right; right; left; reflexivity).
  split; [exact Hin | split; [reflexivity | split; [reflexivity|]]].
  destruct (@handshake_with_response companion (PyStr "1")
              (PyDict (request "1" "connect" [])) (@mkState companion __init__ tt)
              (MeshCore (Some default_port)) node_identity Hin eq_refl)
    as (_ & _ & _ & _ & _ & A).
  exact A.
Defined.

(** [connect_builds_what_is_asked] on a tcp request that names the host
    and leaves the port to its default, sent while a session is up. *)
Lemma connect_builds_what_is_asked_witness :
  let d := request "1" "connect" [("type", PyStr "tcp"); ("host", PyStr "10.0.0.7")] in
  let cx := TCPConnection (PyStr "10.0.0.7") (PyInt 4403) in
  @MESHCORE_AVAILABLE companion = true /\
  (eq_str (param d "type" (PyStr "serial")) "tcp" = true -> @TCP_AVAILABLE companion = true) /\
  requested_connection d = cx /\
  calls (@cmd_connect companion (PyStr "1") (PyDict d) (@mkState companion up tt))
  = [ {| call := Invoke (MeshCore (Some default_port)) disconnect; result := Return PyNone |};
      {| call := NewConnection cx; result := Return PyNone |};
      {| call := NewMeshCore (MeshCore (Some cx)); result := Return PyNone |};
      {| call := Invoke (MeshCore (Some cx)) connect; result := Return node_identity |} ].
Proof.
  cbv zeta. split; [reflexivity | split; [reflexivity | split; [reflexivity|]]].
  exact (proj1 (@connect_builds_what_is_asked companion (PyStr "1")
                  (request "1" "connect" [("type", PyStr "tcp"); ("host", PyStr "10.0.0.7")])
                  (@mkState companion up tt) eq_refl (fun _ => eq_refl))).
Defined.

(** [handshake_that_raises] on a port with nothing behind it. *)
Lemma handshake_that_raises_witness :
  let s := @mkState unplugged __init__ tt in
  let r := @cmd_connect unplugged (PyStr "1") (PyDict (request "1" "connect" [])) s in
  In {| call := Invoke (MeshCore (Some default_port)) connect;
        result := Raise (OSError "could not open port") |} (calls r) /\
  outcome r = Raise (OSError "could not open port") /\
  connected (self (after r)) = false /\
  meshcore (self (after r)) = Some (MeshCore (Some default_port)) /\
  exists o, calls (@cmd_disconnect unplugged (PyStr "2") (after r))
            = [ {| call := Invoke (MeshCore (Some default_port)) disconnect;
                   result := o |} ].
Proof.
  cbv zeta.
  assert (Hin : In {| call := Invoke (MeshCore (Some default_port)) connect;
                      result := Raise (OSError "could not open port") |}
                   (calls (@cmd_connect unplugged (PyStr "1")
                             (PyDict (request "1" "connect" []))
                             (@mkState unplugged __init__ tt))))
    by (right; right; left; reflexivity).
  split; [exact Hin|].
  destruct (@handshake_that_raises unplugged (PyStr "1")
              (PyDict (request "1" "connect" [])) (@mkState unplugged __init__ tt)
              (MeshCore (Some default_port)) (OSError "could not open port") Hin)
    as (O & C & M & _ & _ & D).
  split; [exact O | split; [exact C | split; [exact M|]]].
  destruct (D (PyStr "2")) as (o & L & _). exists o. exact L.
Defined.

(** [reconnect_closes_first] on a session that is up. *)
Lemma reconnect_closes_first_witness :
  let s := @mkState companion up tt in
  @MESHCORE_AVAILABLE companion = true /\
  connected (self s) = true /\
  meshcore (self s) = Some (MeshCore (Some default_port)) /\
  exists rest,
    calls (@cmd_connect companion (PyStr "1")
             (PyDict (request "1" "connect" [("type", PyStr "tcp")])) s)
    = {| call := Invoke (MeshCore (Some default_port)) disconnect;
         result := Return PyNone |} :: rest.
Proof.
  cbv zeta. split; [reflexivity | split; [reflexivity | split; [reflexivity|]]].
  exact (@reconnect_closes_first companion (PyStr "1")
           (PyDict (request "1" "connect" [("type", PyStr "tcp")]))
           (@mkState companion up tt) (MeshCore (Some default_port))
           eq_refl eq_refl eq_refl).
Defined.

(** [without_meshcore_nothing_is_called] where the package is not
    installed, on a connect followed by a request for contacts. *)
Lemma without_meshcore_nothing_is_called_witness :
  let input := [request_line (request "1" "connect" []);
                request_line (request "2" "get_contacts" [])] in
  @MESHCORE_AVAILABLE not_installed = false /\
  called (trace (fst (@run not_installed input tt))) = [] /\
  stdout (trace (fst (@run not_installed input tt)))
  = [@ready not_installed; failure (PyStr "1") NOT_INSTALLED;
     failure (PyStr "2") NOT_CONNECTED].
Proof.
  cbv zeta. split; [reflexivity|].
  split; [|reflexivity].
  exact (proj1 (proj2 (@without_meshcore_nothing_is_called not_installed eq_refl)
                  [request_line (request "1" "connect" []);
                   request_line (request "2" "get_contacts" [])] tt)).
Defined.

(** [connect_without_tcp] on a session that is up: the refused request
    brings it down. *)
Lemma connect_without_tcp_witness :
  let d := request "1" "connect" [("type", PyStr "tcp"); ("host", PyStr "10.0.0.7")] in
  let s := @mkState serial_only up tt in
  let r := @cmd_connect serial_only (PyStr "1") (PyDict d) s in
  @MESHCORE_AVAILABLE serial_only = true /\
  @TCP_AVAILABLE serial_only = false /\
  eq_str (param d "type" (PyStr "serial")) "tcp" = true /\
  outcome r = Return (failure (PyStr "1") TCP_NOT_SUPPORTED) /\
  self (after r) = dropped up /\
  calls r = [ {| call := Invoke (MeshCore (Some default_port)) disconnect;
                 result := Return PyNone |} ].
Proof.
  cbv zeta. split; [reflexivity | split; [reflexivity | split; [reflexivity|]]].
  exact (@connect_without_tcp serial_only (PyStr "1")
           (request "1" "connect" [("type", PyStr "tcp"); ("host", PyStr "10.0.0.7")])
           (@mkState serial_only up tt) eq_refl eq_refl eq_refl).
Defined.

(** [contacts_are_listed_in_order] on two contacts, and on a table whose
    second entry is a string. *)
Lemma contacts_are_listed_in_order_witness :
  let bad := [("a1", PyDict []); ("b2", PyStr "bob"); ("c3", PyDict [])] in
  (exists out,
      serialize_contacts two_contacts [] = Return out /\
      length out = 2 /\
      map (fun c => field c "public_key") out = [PyStr "a1"; PyStr "b2"]) /\
  serialize_contacts bad [] = Raise (AttributeError (PyStr "bob") "get").
Proof.
  cbv zeta. split.
  - exact (proj1 (contacts_are_listed_in_order two_contacts) eq_refl).
  - exact (proj2 (contacts_are_listed_in_order
                    [("a1", PyDict []); ("b2", PyStr "bob"); ("c3", PyDict [])])
                 [("a1", PyDict [])] "b2" (PyStr "bob") [("c3", PyDict [])]
                 eq_refl eq_refl eq_refl).
Defined.

(** [contacts_are_read_after_the_refresh] on a node whose table is empty
    until it is refreshed. *)
Lemma contacts_are_read_after_the_refresh_witness :
  let s := @mkState roster up false in
  let mc := MeshCore (Some default_port) in
  connected (self s) = true /\
  meshcore (self s) = Some mc /\
  @contacts bool (@lib roster) mc false = PyDict [] /\
  exists out,
    @cmd_get_contacts roster (PyStr "4") s
    = mkResult (Return (success (PyStr "4") (PyList out)))
               (@mkState roster up true)
               [ {| call := Invoke mc commands_get_contacts; result := Return PyNone |} ] /\
    map (fun c => field c "public_key") out = [PyStr "a1"; PyStr "b2"].
Proof.
  cbv zeta. split; [reflexivity | split; [reflexivity | split; [reflexivity|]]].
  exact (@contacts_are_read_after_the_refresh roster (PyStr "4") (@mkState roster up false)
           (MeshCore (Some default_port)) PyNone two_contacts
           eq_refl eq_refl eq_refl eq_refl eq_refl).
Defined.

(** [self_info_comes_from_the_cache] on a client that has cached
    nothing, and on the companion node. *)
Lemma self_info_comes_from_the_cache_witness :
  let s := @mkState roster up false in
  let mc := MeshCore (Some default_port) in
  (connected (self s) = true /\
   truthy (@self_info bool (@lib roster) mc false) = false /\
   @cmd_get_self_info roster (PyStr "3") s
   = mkResult (Return (success (PyStr "3") blank_identity)) s []) /\
  (@self_info unit (@lib companion) mc tt = node_identity /\
   @cmd_get_self_info companion (PyStr "3") (@mkState companion up tt)
   = mkResult
       (Return (success (PyStr "3")
                  (PyDict [("public_key", PyStr "a1b2c3"); ("name", PyStr "node-1");
                           ("adv_type", PyNone); ("tx_power", PyNone);
                           ("max_tx_power", PyNone); ("radio_freq", PyNone);
                           ("radio_bw", PyNone); ("radio_sf", PyNone);
                           ("radio_cr", PyNone);
                           ("latitude", PyNone); ("longitude", PyNone)])))
       (@mkState companion up tt) []).
Proof.
  cbv zeta. split.
  - split; [reflexivity | split; [reflexivity|]].
    destruct (@self_info_comes_from_the_cache roster (PyStr "3") (@mkState roster up false))
      as (_ & _ & _ & G & _).
    exact (G (MeshCore (Some default_port)) eq_refl eq_refl).
  - split; [reflexivity|].
    destruct (@self_info_comes_from_the_cache companion (PyStr "3")
                (@mkState companion up tt)) as (_ & _ & _ & G & _).
    exact (G (MeshCore (Some default_port)) eq_refl eq_refl).
Defined.


(** [login_is_acknowledged_unverified] on a request without password. *)
Lemma login_is_acknowledged_unverified_witness :
  let d := request "7" "login" [("public_key", PyStr "a1b2c3")] in
  let s := @mkState companion up tt in
  let r := @cmd_login companion (PyStr "7") (PyDict d) s in
  connected (self s) = true /\
  meshcore (self s) = Some (MeshCore (Some default_port)) /\
  calls r = [ {| call := Invoke (MeshCore (Some default_port))
                           (commands_send_login (PyStr "a1b2c3") (PyStr ""));
                 result := Return PyNone |} ] /\
  outcome r = Return (success (PyStr "7") (PyDict [("logged_in", PyBool true)])).
Proof.
  cbv zeta. split; [reflexivity | split; [reflexivity|]].
  destruct (@login_is_acknowledged_unverified companion (PyStr "7")
              (request "7" "login" [("public_key", PyStr "a1b2c3")])
              (@mkState companion up tt) (MeshCore (Some default_port)) eq_refl eq_refl)
    as (L & A & _).
  split; [exact L | exact (A PyNone eq_refl)].
Defined.

(** [set_name_echoes_the_name] on a request without a name. *)
Lemma set_name_echoes_the_name_witness :
  let d := request "9" "set_name" [] in
  let s := @mkState companion up tt in
  let r := @cmd_set_name companion (PyStr "9") (PyDict d) s in
  connected (self s) = true /\
  meshcore (self s) = Some (MeshCore (Some default_port)) /\
  calls r = [ {| call := Invoke (MeshCore (Some default_port)) (commands_set_name (PyStr ""));
                 result := Return PyNone |} ] /\
  outcome r = Return (success (PyStr "9") (PyDict [("name", PyStr "")])).
Proof.
  cbv zeta. split; [reflexivity | split; [reflexivity|]].
  destruct (@set_name_echoes_the_name companion (PyStr "9") (request "9" "set_name" [])
              (@mkState companion up tt) (MeshCore (Some default_port)) eq_refl eq_refl)
    as (L & A & _).
  split; [exact L | exact (A PyNone eq_refl)].
Defined.

(** [set_radio_passes_parameters_on] on a request that gives only the
    frequency, as a string. *)
Lemma set_radio_passes_parameters_on_witness :
  let d := request "10" "set_radio" [("freq", PyStr "fast")] in
  let s := @mkState companion up tt in
  let r := @cmd_set_radio companion (PyStr "10") (PyDict d) s in
  connected (self s) = true /\
  meshcore (self s) = Some (MeshCore (Some default_port)) /\
  calls r = [ {| call := Invoke (MeshCore (Some default_port))
                           (commands_set_radio (PyStr "fast") PyNone PyNone PyNone);
                 result := Return PyNone |} ] /\
  outcome r = Return (success (PyStr "10") (PyDict [("set", PyBool true)])).
Proof.
  cbv zeta. split; [reflexivity | split; [reflexivity|]].
  destruct (@set_radio_passes_parameters_on companion (PyStr "10")
              (request "10" "set_radio" [("freq", PyStr "fast")])
              (@mkState companion up tt) (MeshCore (Some default_port)) eq_refl eq_refl)
    as (L & A & _).
  split; [exact L | exact (A PyNone eq_refl)].
Defined.
